(** * chatbot-async-app: the backend relay of [backend/server.js]

    A shallow embedding of the two request handlers of the Express
    server, [POST /chat] and [POST /webhook/modelriver], with the two
    in-memory maps they share, and the properties of the relay that
    follow from the code.

    The handlers are JavaScript: every value that reaches them is the
    result of [JSON.parse] (a request body, a provider reply) or a
    string (a header, an environment variable, a uuid), and the code
    probes those values with truthiness, [typeof], [||], [?.] and
    property reads.  The first part of the file is therefore a small
    model of exactly those operations; the handlers follow, line by
    line, with every outside influence (uuids drawn, clock readings,
    the result of an [axios.post]) passed in explicitly. *)

From Stdlib Require Import List String Ascii ZArith Bool Lia.
From Stdlib Require Import DecimalString.
Import ListNotations.

Local Open Scope string_scope.
Local Open Scope Z_scope.

Set Warnings "-register-all".

(** ** JavaScript values *)

(** What [JSON.parse] produces, plus [undefined].  Numbers are the
    integers of the safe range (magnitude up to 2^53), which
    JavaScript holds exactly and prints digit by digit; fractions and
    larger numbers are left out.  The handlers only test a number for
    truthiness, print it or use it as a map key.  An object keeps its
    properties in enumeration order. *)
Inductive value : Type :=
| VUndefined
| VNull
| VBool (b : bool)
| VNum (n : Z)
| VStr (s : string)
| VArr (items : list value)
| VObj (props : list (string * value)).

(** [!!v] *)
Definition truthy (v : value) : bool :=
  match v with
  | VUndefined | VNull => false
  | VBool b => b
  | VNum n => negb (n =? 0)
  | VStr s => negb (s =? "")%string
  | VArr _ | VObj _ => true
  end.

(** [typeof v] *)
Definition typeof (v : value) : string :=
  match v with
  | VUndefined => "undefined"
  | VNull | VArr _ | VObj _ => "object"
  | VBool _ => "boolean"
  | VNum _ => "number"
  | VStr _ => "string"
  end.

(** [Array.isArray(v)] *)
Definition isArray (v : value) : bool :=
  match v with VArr _ => true | _ => false end.

(** [v === null || v === undefined], the test behind [?.] *)
Definition nullish (v : value) : bool :=
  match v with VUndefined | VNull => true | _ => false end.

(** [a || b] and [a && b]; both operands are pure in every use below. *)
Definition js_or (a b : value) : value := if truthy a then a else b.
Definition js_and (a b : value) : value := if truthy a then b else a.

Fixpoint assoc (k : string) (l : list (string * value)) : option value :=
  match l with
  | [] => None
  | (k', v) :: r => if (k =? k')%string then Some v else assoc k r
  end.

(** [v.k] for [v] neither [null] nor [undefined].  The handlers read
    only the names [channel_id], [status], [data], [meta],
    [callback_url], [type], [event], [ai_response], [choices],
    [response], [message], [content], [usage] and the names of a
    provider reply; none of them is a property of a parsed array, of
    a primitive's wrapper or of [Object.prototype], so only an
    object's own properties answer. *)
Definition get_prop (k : string) (v : value) : value :=
  match v with
  | VObj l => match assoc k l with Some x => x | None => VUndefined end
  | _ => VUndefined
  end.

(** [v?.k] *)
Definition opt_get (k : string) (v : value) : value :=
  if nullish v then VUndefined else get_prop k v.

(** [v?.[0]]: the first element of an array, the first character of a
    string, the property ["0"] of an object. *)
Definition opt_index0 (v : value) : value :=
  match v with
  | VArr (x :: _) => x
  | VStr (String c _) => VStr (String c EmptyString)
  | VObj l => match assoc "0" l with Some x => x | None => VUndefined end
  | _ => VUndefined
  end.

(** [k in v] for an object's own properties. *)
Definition has_field (k : string) (v : value) : bool :=
  match v with
  | VObj l => match assoc k l with Some _ => true | None => false end
  | _ => false
  end.

(** Writing property [k] of an object: an existing property keeps its
    place, a new one goes last.  This is what [{...o, k: v}] does for
    each listed key. *)
Fixpoint obj_set (k : string) (v : value) (l : list (string * value))
  : list (string * value) :=
  match l with
  | [] => [(k, v)]
  | (k', v') :: r =>
      if (k =? k')%string then (k', v) :: r else (k', v') :: obj_set k v r
  end.

(** ** [JSON.stringify] *)

Definition dquote : ascii := "034"%char.
Definition backslash : ascii := "092"%char.

Definition hex_digit (n : N) : ascii :=
  if (n <? 10)%N then ascii_of_N (48 + n) else ascii_of_N (87 + n).

(** One character of a quoted JSON string. *)
Definition escape_char (c : ascii) : string :=
  let n := N_of_ascii c in
  if (n =? 34)%N then String backslash (String dquote EmptyString)
  else if (n =? 92)%N then String backslash (String backslash EmptyString)
  else if (n =? 8)%N then String backslash "b"
  else if (n =? 9)%N then String backslash "t"
  else if (n =? 10)%N then String backslash "n"
  else if (n =? 12)%N then String backslash "f"
  else if (n =? 13)%N then String backslash "r"
  else if (n <? 32)%N then
    String backslash
      ("u00" ++ String (hex_digit (n / 16)) (String (hex_digit (n mod 16)) EmptyString))
  else String c EmptyString.

Fixpoint escape (s : string) : string :=
  match s with
  | EmptyString => EmptyString
  | String c r => escape_char c ++ escape r
  end.

Definition quote (s : string) : string :=
  String dquote (escape s ++ String dquote EmptyString).

Definition string_of_Z (n : Z) : string :=
  NilZero.string_of_int (Z.to_int n).

(** The text of a value, [None] where [JSON.stringify] answers
    [undefined].  Inside an array [undefined] prints as [null]; inside
    an object a property holding [undefined] is left out. *)
Fixpoint stringify (v : value) : option string :=
  match v with
  | VUndefined => None
  | VNull => Some "null"
  | VBool true => Some "true"
  | VBool false => Some "false"
  | VNum n => Some (string_of_Z n)
  | VStr s => Some (quote s)
  | VArr l =>
      let fix elems (l : list value) : list string :=
        match l with
        | [] => []
        | x :: r =>
            match stringify x with
            | Some s => s :: elems r
            | None => "null" :: elems r
            end
        end in
      Some ("[" ++ String.concat "," (elems l) ++ "]")
  | VObj l =>
      let fix members (l : list (string * value)) : list string :=
        match l with
        | [] => []
        | (k, x) :: r =>
            match stringify x with
            | Some s => (quote k ++ ":" ++ s) :: members r
            | None => members r
            end
        end in
      Some ("{" ++ String.concat "," (members l) ++ "}")
  end.

Definition JSON_stringify (v : value) : value :=
  match stringify v with
  | Some s => VStr s
  | None => VUndefined
  end.

(** ** [Map]

    A JavaScript [Map] compares keys with SameValueZero: primitives by
    value, arrays and objects by reference.  Every key the handlers
    use is read out of the JSON of one request and compared with keys
    read out of the JSON of other requests, and two parses never share
    a reference, so an array or an object is equal to no stored key. *)
Definition same_value_zero (a b : value) : bool :=
  match a, b with
  | VUndefined, VUndefined => true
  | VNull, VNull => true
  | VBool x, VBool y => Bool.eqb x y
  | VNum x, VNum y => (x =? y)
  | VStr x, VStr y => (x =? y)%string
  | _, _ => false
  end.

Section JSMap.
Context {V : Type}.

Definition JSMap : Type := list (value * V).

Fixpoint Map_get (k : value) (m : JSMap) : option V :=
  match m with
  | [] => None
  | (k', v) :: r => if same_value_zero k k' then Some v else Map_get k r
  end.

Definition Map_has (k : value) (m : JSMap) : bool :=
  match Map_get k m with Some _ => true | None => false end.

Fixpoint Map_set (k : value) (v : V) (m : JSMap) : JSMap :=
  match m with
  | [] => [(k, v)]
  | (k', v') :: r =>
      if same_value_zero k k' then (k', v) :: r else (k', v') :: Map_set k v r
  end.

(** A [Map] holds a key once; [delete] removes its entry. *)
Definition Map_delete (k : value) (m : JSMap) : JSMap :=
  filter (fun e => negb (same_value_zero k (fst e))) m.

End JSMap.
Arguments JSMap V : clear implicits.

(** ** The two stores *)

(** The object [/chat] stores under the provider's channel id. *)
Module Pending.
Record t : Type := mk {
  prompt : value;
  timestamp : Z;
  conversationId : value;
  messageId : string
}.
End Pending.

(** The [record] the webhook handler builds. *)
Module Rec.
Record t : Type := mk {
  id : value;
  prompt : value;
  response : value;
  created_at : string;
  channel_id : value;
  conversation_id : value;
  usage : value
}.
End Rec.

Record Conversation : Type := {
  messages : list Rec.t;
  createdAt : string
}.

Record State : Type := {
  conversations : JSMap Conversation;
  pendingRequests : JSMap Pending.t
}.

Definition initial : State :=
  {| conversations := []; pendingRequests := [] |}.

(** [put] is the [pendingRequests.set] of [/chat] (line 143).  The
    webhook handler reads the store with [pendingRequests.get] (line
    205) and deletes from it only later (line 254); the two are
    separate steps of [webhook] below. *)
Definition put (c : value) (p : Pending.t) (m : JSMap Pending.t) : JSMap Pending.t :=
  Map_set c p m.

(** ** Configuration, HTTP and errors *)

Record Config : Type := {
  MODELRIVER_API_URL : string;
  MODELRIVER_API_KEY : option string;   (* [process.env.MODELRIVER_API_KEY] *)
  BACKEND_PUBLIC_URL : string
}.

(** [!MODELRIVER_API_KEY] is false exactly for a non-empty string. *)
Definition api_key_value (cfg : Config) : value :=
  match MODELRIVER_API_KEY cfg with
  | Some k => VStr k
  | None => VUndefined
  end.

Definition bearer (cfg : Config) : string :=
  "Bearer " ++ match MODELRIVER_API_KEY cfg with Some k => k | None => "undefined" end.

Record Request : Type := {
  headers : list (string * string);   (* names in lower case, as Node gives them *)
  body : value
}.

Record Response : Type := {
  status : Z;
  json : value
}.

(** An [axios.post(url, data, config)] call. *)
Record HttpPost : Type := {
  url : string;
  data : value;
  post_headers : list (string * string);
  timeout : option Z;               (* milliseconds; axios has none by default *)
  validateStatus : Z -> bool
}.

(** axios' default [validateStatus]. *)
Definition status_2xx (s : Z) : bool := (200 <=? s) && (s <? 300).

(** What the network did with a request. *)
Inductive NetReply : Type :=
| Replied (status : Z) (data : value)   (* a response came back *)
| NoReply (message : string)            (* sent, nothing came back: refused, reset, timed out *)
| NotSent (message : string).           (* the request could not be set up *)

(** What can be thrown inside a handler. *)
Inductive thrown : Type :=
| JsError (message : string)            (* TypeError, ReferenceError, Error *)
| AxiosError (message : string) (response : option (Z * value)) (request : bool).

Definition err_message (e : thrown) : string :=
  match e with
  | JsError m => m
  | AxiosError m _ _ => m
  end.

(** [error.response] *)
Definition err_response (e : thrown) : value :=
  match e with
  | AxiosError _ (Some (s, d)) _ => VObj [("status", VNum s); ("data", d)]
  | _ => VUndefined
  end.

(** [error.request], as far as its truthiness goes *)
Definition err_request (e : thrown) : bool :=
  match e with
  | AxiosError _ _ r => r
  | JsError _ => false
  end.

Inductive result (A : Type) : Type :=
| Ok (a : A)
| Throw (e : thrown).
Arguments Ok {A} a.
Arguments Throw {A} e.

(** [await axios.post(...)]: resolves with the response when
    [validateStatus] accepts its status, rejects otherwise. *)
Definition axios_post (req : HttpPost) (net : NetReply) : result (Z * value) :=
  match net with
  | Replied s d =>
      if validateStatus req s then Ok (s, d)
      else Throw (AxiosError ("Request failed with status code " ++ string_of_Z s)
                             (Some (s, d)) true)
  | NoReply m => Throw (AxiosError m None true)
  | NotSent m => Throw (AxiosError m None false)
  end.

(** [const { first, ... } = v] throws on [null] and [undefined]. *)
Definition destructure (first what : string) (v : value) : result value :=
  match v with
  | VUndefined =>
      Throw (JsError ("Cannot destructure property '" ++ first ++ "' of '" ++ what
                      ++ "' as it is undefined."))
  | VNull =>
      Throw (JsError ("Cannot destructure property '" ++ first ++ "' of '" ++ what
                      ++ "' as it is null."))
  | _ => Ok v
  end.

(** ** [POST /chat] (lines 78-167) *)

(** What the handler takes from outside: the uuids it draws, the clock
    and the provider's answer to the dispatch. *)
Record ChatWorld : Type := {
  conversation_uuid : string;   (* [uuidv4()] of line 95, used when no id came in *)
  message_uuid : string;        (* [uuidv4()] of line 96 *)
  metadata_now : Z;             (* [Date.now()] of line 115 *)
  stored_now : Z;               (* [Date.now()] of line 145 *)
  provider : NetReply
}.

Record ChatOutcome : Type := {
  chat_state : State;
  chat_response : Response;
  chat_dispatch : option HttpPost   (* the [axios.post] of line 123, when reached *)
}.

(** Lines 100-117. *)
Definition chat_payload (cfg : Config) (w : ChatWorld)
    (message customConversationId workflow events : value) : value :=
  VObj [("workflow", js_or workflow (VStr "mr_chatbot_workflow"));
        ("messages", VArr [VObj [("role", VStr "user"); ("content", message)]]);
        ("delivery_method", VStr "websocket");
        ("webhook_url", VStr (BACKEND_PUBLIC_URL cfg ++ "/webhook/modelriver"));
        ("events", js_or events (VArr [VStr "webhook_received"]));
        ("metadata",
          VObj [("conversation_id", customConversationId);
                ("message_id", VStr (message_uuid w));
                ("original_prompt", message);
                ("timestamp", VNum (metadata_now w))])].

(** Lines 123-132. *)
Definition chat_post (cfg : Config) (payload : value) : HttpPost :=
  {| url := MODELRIVER_API_URL cfg ++ "/v1/ai/async";
     data := payload;
     post_headers := [("Authorization", bearer cfg);
                      ("Content-Type", "application/json")];
     timeout := None;
     validateStatus := status_2xx |}.

(** The [catch] of lines 159-166. *)
Definition chat_catch (e : thrown) : Response :=
  {| status := 500;
     json := VObj [("error",
                     js_or (opt_get "message" (opt_get "data" (err_response e)))
                           (VStr (err_message e)));
                   ("details", opt_get "data" (err_response e))] |}.

Definition chat (cfg : Config) (w : ChatWorld) (st : State) (req : Request)
  : ChatOutcome :=
  match destructure "message" "req.body" (body req) with
  | Throw e =>
      {| chat_state := st; chat_response := chat_catch e; chat_dispatch := None |}
  | Ok b =>
      let message := get_prop "message" b in
      let conversationId := get_prop "conversationId" b in
      let workflow := get_prop "workflow" b in
      let events := get_prop "events" b in
      if negb (truthy message) then
        {| chat_state := st;
           chat_response :=
             {| status := 400;
                json := VObj [("error", VStr "Message is required")] |};
           chat_dispatch := None |}
      else if negb (truthy (api_key_value cfg)) then
        {| chat_state := st;
           chat_response :=
             {| status := 500;
                json := VObj [("error",
                  VStr "MODELRIVER_API_KEY not configured. Set it in environment variables.")] |};
           chat_dispatch := None |}
      else
        let customConversationId := js_or conversationId (VStr (conversation_uuid w)) in
        let customMessageId := message_uuid w in
        let post :=
          chat_post cfg (chat_payload cfg w message customConversationId workflow events) in
        match axios_post post (provider w) with
        | Throw e =>
            {| chat_state := st; chat_response := chat_catch e;
               chat_dispatch := Some post |}
        | Ok (_, response_data) =>
            match destructure "channel_id" "response.data" response_data with
            | Throw e =>
                {| chat_state := st; chat_response := chat_catch e;
                   chat_dispatch := Some post |}
            | Ok d =>
                let channel_id := get_prop "channel_id" d in
                {| chat_state :=
                     {| conversations := conversations st;
                        pendingRequests :=
                          put channel_id
                            {| Pending.prompt := message;
                               Pending.timestamp := stored_now w;
                               Pending.conversationId := customConversationId;
                               Pending.messageId := customMessageId |}
                            (pendingRequests st) |};
                   chat_response :=
                     {| status := 200;
                        json := VObj [("channel_id", channel_id);
                                      ("ws_token", get_prop "ws_token" d);
                                      ("websocket_url", get_prop "websocket_url" d);
                                      ("websocket_channel", get_prop "websocket_channel" d);
                                      ("project_id", get_prop "project_id" d)] |};
                   chat_dispatch := Some post |}
            end
        end
  end.

(** ** [POST /webhook/modelriver] (lines 184-428) *)

Record WebhookWorld : Type := {
  fresh_uuid : string;        (* [uuidv4()] of line 213, used when no id was stored *)
  record_time : string;       (* [new Date().toISOString()] of line 235 *)
  conversation_time : string; (* [new Date()] of line 249 *)
  processed_time : string;    (* [new Date().toISOString()] of line 346 *)
  downstream : NetReply       (* what the callback address answers *)
}.

Record WebhookOutcome : Type := {
  wh_state : State;
  wh_response : Response;
  wh_callback : option HttpPost   (* the [axios.post] of line 367, when reached *)
}.

(** [req.headers[name]] *)
Definition header (name : string) (req : Request) : value :=
  match find (fun h => (fst h =? name)%string) (headers req) with
  | Some (_, v) => VStr v
  | None => VUndefined
  end.

(** Line 191. *)
Definition callbackUrl_of (req : Request) : value :=
  js_or (get_prop "callback_url" (body req)) (header "x-modelriver-callback-url" req).

(** Lines 194 and 218: [ai_response?.data || data], then [|| data] again. *)
Definition responseData_of (b : value) : value :=
  js_or (opt_get "data" (get_prop "ai_response" b)) (get_prop "data" b).

Definition responseDataToProcess_of (b : value) : value :=
  js_or (responseData_of b) (get_prop "data" b).

(** [x?.choices?.[0]?.message?.content] *)
Definition content_path (x : value) : value :=
  opt_get "content" (opt_get "message" (opt_index0 (opt_get "choices" x))).

(** Lines 217-228: the response value, from the selected payload. *)
Definition aiResponse_of (x : value) : value :=
  if truthy x && (typeof x =? "object")%string
     && negb (truthy (get_prop "choices" x)) && negb (truthy (get_prop "response" x))
  then x
  else js_or (content_path x)
         (js_or (content_path (opt_get "response" x)) (JSON_stringify x)).

(** Lines 205-206 and 213. *)
Definition stored_prompt (p : option Pending.t) : value :=
  match p with Some q => Pending.prompt q | None => VUndefined end.

Definition stored_conversationId (p : option Pending.t) : value :=
  match p with Some q => Pending.conversationId q | None => VUndefined end.

Definition stored_messageId (p : option Pending.t) : value :=
  match p with Some q => VStr (Pending.messageId q) | None => VUndefined end.

Definition messageId_of (w : WebhookWorld) (p : option Pending.t) : value :=
  js_or (stored_messageId p) (VStr (fresh_uuid w)).

(** [meta?.usage || data?.usage] *)
Definition usage_of (b : value) : value :=
  js_or (opt_get "usage" (get_prop "meta" b)) (opt_get "usage" (get_prop "data" b)).

(** Lines 231-239. *)
Definition record_of (w : WebhookWorld) (p : option Pending.t) (b : value) : Rec.t :=
  {| Rec.id := messageId_of w p;
     Rec.prompt := js_or (stored_prompt p) (VStr "Unknown prompt");
     Rec.response := aiResponse_of (responseDataToProcess_of b);
     Rec.created_at := record_time w;
     Rec.channel_id := get_prop "channel_id" b;
     Rec.conversation_id := stored_conversationId p;
     Rec.usage := usage_of b |}.

(** [v?.substring(0, 50)] inside the log of lines 241-245: nothing is
    called on [null] or [undefined], a string has the method, and on
    every other value the property read gives [undefined] and calling
    it throws a TypeError. *)
Definition substring_call (what : string) (v : value) : result unit :=
  match v with
  | VUndefined | VNull | VStr _ => Ok tt
  | _ => Throw (JsError (what ++ "?.substring is not a function"))
  end.

Definition log_record (r : Rec.t) : result unit :=
  match substring_call "record.prompt" (Rec.prompt r) with
  | Throw e => Throw e
  | Ok _ => substring_call "record.response" (Rec.response r)
  end.

(** Lines 248-251: the conversation is created on its first record and
    the record pushed onto its [messages].  A key that is an array or
    an object is a reference no earlier entry can hold, so it always
    opens a new conversation. *)
Fixpoint push_message (k : value) (r : Rec.t) (m : JSMap Conversation)
  : JSMap Conversation :=
  match m with
  | [] => []
  | (k', c) :: rest =>
      if same_value_zero k k'
      then (k', {| messages := (messages c ++ [r])%list; createdAt := createdAt c |}) :: rest
      else (k', c) :: push_message k r rest
  end.

Definition append_record (w : WebhookWorld) (k : value) (r : Rec.t)
    (m : JSMap Conversation) : JSMap Conversation :=
  if Map_has k m then push_message k r m
  else (m ++ [(k, {| messages := [r]; createdAt := conversation_time w |})])%list.

(** Lines 289-301. *)
Definition callbackData_of (b : value) : value :=
  let ai_response := get_prop "ai_response" b in
  let data := get_prop "data" b in
  if truthy (js_and (VBool (same_value_zero (get_prop "type" b) (VStr "task.ai_generated")))
                    (opt_get "data" ai_response))
  then get_prop "data" ai_response
  else if truthy data then data
  else js_or (responseData_of b) (VObj []).

(** Lines 307-337: the identifiers injected into the callback data. *)
Definition enrichedData_of (callbackData messageId conversationId : value) : value :=
  if truthy callbackData && (typeof callbackData =? "object")%string
     && negb (isArray callbackData) && negb (same_value_zero callbackData VNull)
  then
    match callbackData with
    | VObj l => VObj (obj_set "conversation_id" conversationId (obj_set "id" messageId l))
    | _ => VObj [("id", messageId); ("conversation_id", conversationId)]  (* not reached *)
    end
  else if isArray callbackData then
    VObj [("items", callbackData); ("id", messageId); ("conversation_id", conversationId)]
  else if negb (nullish callbackData) then
    VObj [("content", callbackData); ("id", messageId); ("conversation_id", conversationId)]
  else
    VObj [("id", messageId); ("conversation_id", conversationId);
          ("message", VStr "Response processed")].

(** Lines 340-349. *)
Definition callbackPayload_of (w : WebhookWorld) (b : value)
    (enrichedData messageId conversationId : value) : value :=
  VObj [("data", js_or enrichedData (VObj []));
        ("task_id", messageId);
        ("metadata",
          VObj [("conversation_id", conversationId);
                ("channel_id", get_prop "channel_id" b);
                ("processed_at", VStr (processed_time w));
                ("usage",
                  js_or (opt_get "usage" (get_prop "meta" b))
                    (js_or (opt_get "usage" (get_prop "data" b))
                       (js_or (opt_get "usage" (opt_get "meta" (get_prop "ai_response" b)))
                              (VObj []))))])].

(** Lines 367-374. *)
Definition callback_validateStatus (s : Z) : bool := s <? 500.

Definition callback_post (cfg : Config) (callbackUrl : string) (payload : value)
  : HttpPost :=
  {| url := callbackUrl;
     data := payload;
     post_headers := [("Content-Type", "application/json");
                      ("Authorization", bearer cfg)];
     timeout := Some 30000;
     validateStatus := callback_validateStatus |}.

(** The [catch (callbackError)] of lines 379-407.  All three branches
    only log; the first one, taken when the error carries a response,
    ends by printing [callbackPayload], a [const] of the [try] block
    that is not in scope here, and that read throws a ReferenceError
    out of the handler. *)
Definition callback_catch (callbackError : thrown) : result unit :=
  if truthy (err_response callbackError)
  then Throw (JsError "callbackPayload is not defined")
  else if err_request callbackError then Ok tt
  else Ok tt.

(** Lines 283-407: the [try] around building, checking and posting the
    callback, with its [catch].  The second component is the request
    handed to axios, if it got that far. *)
Definition send_callback (cfg : Config) (w : WebhookWorld) (b : value)
    (callbackUrl : string) (messageId conversationId : value)
  : result unit * option HttpPost :=
  let enrichedData := enrichedData_of (callbackData_of b) messageId conversationId in
  let callbackPayload := callbackPayload_of w b enrichedData messageId conversationId in
  let d := get_prop "data" callbackPayload in
  if negb (truthy d) || negb (typeof d =? "object")%string || isArray d
  then (callback_catch (JsError "Callback data must be a valid object"), None)
  else
    let post := callback_post cfg callbackUrl callbackPayload in
    match axios_post post (downstream w) with
    | Ok _ => (Ok tt, Some post)
    | Throw e => (callback_catch e, Some post)
    end.

(** The [catch] of lines 424-427. *)
Definition webhook_catch (e : thrown) : Response :=
  {| status := 500; json := VObj [("error", VStr (err_message e))] |}.

(** Lines 418-422. *)
Definition webhook_ack (messageId : value) : Response :=
  {| status := 200;
     json := VObj [("success", VBool true);
                   ("message", VStr "Webhook processed");
                   ("record_id", messageId)] |}.

Definition webhook (cfg : Config) (w : WebhookWorld) (st : State) (req : Request)
  : WebhookOutcome :=
  match destructure "channel_id" "req.body" (body req) with
  | Throw e => {| wh_state := st; wh_response := webhook_catch e; wh_callback := None |}
  | Ok b =>
      let channel_id := get_prop "channel_id" b in
      let callbackUrl := callbackUrl_of req in
      let pendingRequest := Map_get channel_id (pendingRequests st) in
      let conversationId := stored_conversationId pendingRequest in
      let messageId := messageId_of w pendingRequest in
      let record := record_of w pendingRequest b in
      match log_record record with
      | Throw e =>
          {| wh_state := st; wh_response := webhook_catch e; wh_callback := None |}
      | Ok _ =>
          let st' :=
            {| conversations := append_record w conversationId record (conversations st);
               pendingRequests := Map_delete channel_id (pendingRequests st) |} in
          let ack :=
            {| wh_state := st'; wh_response := webhook_ack messageId;
               wh_callback := None |} in
          if negb (truthy callbackUrl) then ack
          else
            match callbackUrl with
            | VStr u =>
                if negb (prefix "http" u) then ack   (* logged and skipped *)
                else
                  match send_callback cfg w b u messageId conversationId with
                  | (Ok _, sent) =>
                      {| wh_state := st'; wh_response := webhook_ack messageId;
                         wh_callback := sent |}
                  | (Throw e, sent) =>
                      {| wh_state := st'; wh_response := webhook_catch e;
                         wh_callback := sent |}
                  end
            | _ => ack                               (* not a string: logged and skipped *)
            end
      end
  end.

(** Every record in the conversation log, conversation by conversation. *)
Definition records_of (st : State) : list Rec.t :=
  flat_map (fun e => messages (snd e)) (conversations st).

(** ** [GET /conversations/:id] (lines 435-443) *)

(** What [res.json] sends for a record and for a conversation; the
    [Date] of [createdAt] goes out as its ISO text. *)
Definition record_json (r : Rec.t) : value :=
  VObj [("id", Rec.id r);
        ("prompt", Rec.prompt r);
        ("response", Rec.response r);
        ("created_at", VStr (Rec.created_at r));
        ("channel_id", Rec.channel_id r);
        ("conversation_id", Rec.conversation_id r);
        ("usage", Rec.usage r)].

Definition conversation_json (c : Conversation) : value :=
  VObj [("messages", VArr (map record_json (messages c)));
        ("createdAt", VStr (createdAt c))].

(** [req.params.id] is a string, the path segment after
    [/conversations/]. *)
Definition get_conversation (st : State) (id : string) : Response :=
  match Map_get (VStr id) (conversations st) with
  | None =>
      {| status := 404; json := VObj [("error", VStr "Conversation not found")] |}
  | Some conversation =>
      {| status := 200; json := conversation_json conversation |}
  end.

(** ** [GET /health] (lines 450-460) *)

Definition health (cfg : Config) (now : string) : Response :=
  {| status := 200;
     json := VObj [("status", VStr "ok");
                   ("timestamp", VStr now);
                   ("config",
                     VObj [("modelriver_api_url", VStr (MODELRIVER_API_URL cfg));
                           ("backend_public_url", VStr (BACKEND_PUBLIC_URL cfg));
                           ("api_key_configured",
                             VBool (truthy (api_key_value cfg)))])] |}.

(** ** Configuration from the environment (lines 20-32) *)

(** [process.env], after [dotenv] has filled it in. *)
Definition Env : Type := list (string * string).

(** [process.env[name]] *)
Definition getenv (name : string) (e : Env) : option string :=
  match find (fun kv => (fst kv =? name)%string) e with
  | Some (_, v) => Some v
  | None => None
  end.

(** [process.env[name] || fallback], for a textual fallback: a
    variable set to the empty string counts as not set. *)
Definition env_or (name : string) (fallback : string) (e : Env) : string :=
  match getenv name e with
  | Some v => if (v =? "")%string then fallback else v
  | None => fallback
  end.

(** The text of [PORT] inside a template literal: the variable, or
    [4000]. *)
Definition PORT (e : Env) : string := env_or "PORT" "4000" e.

Definition load_config (e : Env) : Config :=
  {| MODELRIVER_API_URL := env_or "MODELRIVER_API_URL" "https://api.modelriver.com" e;
     MODELRIVER_API_KEY := getenv "MODELRIVER_API_KEY" e;
     BACKEND_PUBLIC_URL := env_or "BACKEND_PUBLIC_URL" ("http://localhost:" ++ PORT e) e |}.

(** ** The server over a sequence of requests

    Each handler changes the stores in one uninterrupted stretch:
    [/chat] only after its [await] (the [set] of line 143), the
    webhook only before its [await] (lines 248-254), the two [GET]
    routes never.  Whatever the interleaving of requests in flight,
    the stores therefore go through the states of some sequence of
    whole calls. *)
Inductive Call : Type :=
| PostChat (w : ChatWorld) (req : Request)
| PostWebhook (w : WebhookWorld) (req : Request)
| GetConversation (id : string)
| GetHealth (now : string).

Definition serve (cfg : Config) (st : State) (c : Call) : State * Response :=
  match c with
  | PostChat w req =>
      let out := chat cfg w st req in (chat_state out, chat_response out)
  | PostWebhook w req =>
      let out := webhook cfg w st req in (wh_state out, wh_response out)
  | GetConversation id => (st, get_conversation st id)
  | GetHealth now => (st, health cfg now)
  end.

(** The stores after a sequence of calls. *)
Definition run (cfg : Config) (st : State) (calls : list Call) : State :=
  fold_left (fun s c => fst (serve cfg s c)) calls st.

(** Every uuid drawn during the calls is a non-empty string, as
    [uuidv4()] gives. *)
Definition uuid_drawn (c : Call) : Prop :=
  match c with
  | PostChat w _ => message_uuid w <> "" /\ conversation_uuid w <> ""
  | PostWebhook w _ => fresh_uuid w <> ""
  | _ => True
  end.

(** ** Vocabulary for the statements *)

(** An object or an array: what passes [v && typeof v === 'object']. *)
Definition object_like (v : value) : bool :=
  match v with VObj _ | VArr _ => true | _ => false end.

(** A string, [null] or [undefined]: what [v?.substring(0, 50)]
    accepts. *)
Definition text_or_absent (v : value) : bool :=
  match v with VStr _ | VUndefined | VNull => true | _ => false end.

(** The handler goes on to post the callback: line 260 finds an
    address and line 262 accepts it. *)
Definition forwards (req : Request) : bool :=
  match callbackUrl_of req with
  | VStr u => prefix "http" u
  | _ => false
  end.

(** The callback address answered with a 5xx status. *)
Definition answered_5xx (n : NetReply) : bool :=
  match n with
  | Replied s _ => negb (s <? 500)
  | _ => false
  end.

(** The provider call of [/chat] failed: no response, or one outside 2xx. *)
Definition dispatch_failed (n : NetReply) : bool :=
  match n with
  | Replied s _ => negb (status_2xx s)
  | _ => true
  end.

(** The provider answered the dispatch with a 2xx status and a body
    other than [null]. *)
Definition provider_accepted (n : NetReply) : bool :=
  match n with
  | Replied s d => status_2xx s && negb (nullish d)
  | _ => false
  end.

(** The messages kept under a conversation id, none when there is no
    such conversation. *)
Definition messages_at (k : value) (st : State) : list Rec.t :=
  match Map_get k (conversations st) with
  | Some c => messages c
  | None => []
  end.

(** No key is filed twice in a map. *)
Fixpoint keys_unique {V : Type} (m : JSMap V) : Prop :=
  match m with
  | [] => True
  | (k, _) :: r => Map_get k r = None /\ keys_unique r
  end.

(** Every record sits in the conversation filed under its own
    conversation id. *)
Definition records_filed (m : JSMap Conversation) : Prop :=
  forall k c r, In (k, c) m -> In r (messages c) -> Rec.conversation_id r = k.

(** Every record in the log has a non-empty string as its id. *)
Definition record_ids_set (st : State) : Prop :=
  forall r, In r (records_of st) -> exists s, Rec.id r = VStr s /\ s <> "".

(** Every id kept in the correlation store is a non-empty string. *)
Definition pending_ids_set (st : State) : Prop :=
  forall k q, In (k, q) (pendingRequests st) -> Pending.messageId q <> "".

(** ** The response rule in the words of the specification

    Written from the specification, to be compared with
    [aiResponse_of]: a non-array object with neither a [choices] nor a
    [response] field is passed through; anything else yields
    [choices[0].message.content], else
    [response.choices[0].message.content], else the JSON text, a path
    counting as there when it leads to a value. *)
Definition spec_response_value (x : value) : value :=
  match x with
  | VObj _ =>
      if negb (has_field "choices" x) && negb (has_field "response" x) then x
      else if negb (nullish (content_path x)) then content_path x
      else if negb (nullish (content_path (opt_get "response" x)))
           then content_path (opt_get "response" x)
      else JSON_stringify x
  | _ =>
      if negb (nullish (content_path x)) then content_path x
      else if negb (nullish (content_path (opt_get "response" x)))
           then content_path (opt_get "response" x)
      else JSON_stringify x
  end.

(** ** Sample configuration and requests used by the examples *)

Definition cfg0 : Config :=
  {| MODELRIVER_API_URL := "https://api.modelriver.com";
     MODELRIVER_API_KEY := Some "mr_test_mock_api_key_12345";
     BACKEND_PUBLIC_URL := "http://localhost:4000" |}.

Definition world0 (n : NetReply) : WebhookWorld :=
  {| fresh_uuid := "1b9d6bcd-bbfd-4b2d-9b5d-ab8dfbbd4bed";
     record_time := "2026-01-10T12:34:56.789Z";
     conversation_time := "2026-01-10T12:34:56.790Z";
     processed_time := "2026-01-10T12:34:56.791Z";
     downstream := n |}.

Definition chat_world0 (n : NetReply) : ChatWorld :=
  {| conversation_uuid := "9c5b94b1-35ad-49bb-b118-8e8fc24abf80";
     message_uuid := "6ec0bd7f-11c0-43da-975e-2a8ad9ebae0b";
     metadata_now := 1768048496000;
     stored_now := 1768048496250;
     provider := n |}.

(** [{choices: [{message: {role: "assistant", content: text}}]}] *)
Definition text_data (text : string) : value :=
  VObj [("choices",
         VArr [VObj [("message",
                      VObj [("role", VStr "assistant"); ("content", VStr text)])]])].

(** A store holding one pending request, under the channel of the
    sample envelopes. *)
Definition pending0 : Pending.t :=
  {| Pending.prompt := VStr "Hello test";
     Pending.timestamp := 1768048496250;
     Pending.conversationId := VStr "9c5b94b1-35ad-49bb-b118-8e8fc24abf80";
     Pending.messageId := "6ec0bd7f-11c0-43da-975e-2a8ad9ebae0b" |}.

Definition waiting : State :=
  {| conversations := [];
     pendingRequests := put (VStr "test-channel") pending0 [] |}.

(** [{reply: "ok", sentiment: "neutral"}] *)
Definition structured_data : value :=
  VObj [("reply", VStr "ok"); ("sentiment", VStr "neutral")].

Definition envelope (status : string) (payload : value) : value :=
  VObj [("channel_id", VStr "test-channel"); ("status", VStr status); ("data", payload)].

Definition envelope_with_callback (payload : value) : value :=
  VObj [("channel_id", VStr "test-channel"); ("status", VStr "success");
        ("data", payload);
        ("callback_url", VStr "https://api.modelriver.com/v1/callback/test-channel")].

(** A webhook request carrying no signature header at all. *)
Definition unsigned_request (b : value) : Request :=
  {| headers := [("content-type", "application/json");
                 ("x-modelriver-timestamp", "1234567890")];
     body := b |}.

(** * Properties *)

(** ** The value model at work *)

Example stringify_sample :
  JSON_stringify (VObj [("a", VArr [VNum 1; VUndefined; VStr "x"]);
                        ("b", VUndefined); ("c", VNum (-20))])
  = VStr ("{" ++ quote "a" ++ ":[1,null," ++ quote "x" ++ "]," ++ quote "c" ++ ":-20}").
Proof. reflexivity. Qed.

Example stringify_undefined : JSON_stringify VUndefined = VUndefined.
Proof. reflexivity. Qed.

Example falsy_values :
  map truthy [VUndefined; VNull; VBool false; VNum 0; VStr ""; VArr []; VObj []]
  = [false; false; false; false; false; true; true].
Proof. reflexivity. Qed.

Example content_of_text : content_path (text_data "x") = VStr "x".
Proof. reflexivity. Qed.

(** ** Objects and maps *)

Lemma assoc_obj_set_same (k : string) (v : value) (l : list (string * value)) :
  assoc k (obj_set k v l) = Some v.
Proof.
  induction l as [|[k' v'] r IH]; simpl.
  - now rewrite String.eqb_refl.
  - destruct (k =? k')%string eqn:E; simpl; rewrite E; auto.
Qed.

Lemma assoc_obj_set_other (k k' : string) (v : value) (l : list (string * value)) :
  (k =? k')%string = false -> assoc k (obj_set k' v l) = assoc k l.
Proof.
  intros Hk. induction l as [|[k'' v''] r IH]; simpl.
  - now rewrite Hk.
  - destruct (k' =? k'')%string eqn:E; simpl.
    + apply String.eqb_eq in E. subst k''. now rewrite Hk.
    + now rewrite IH.
Qed.


Lemma same_value_zero_string (c : string) :
  same_value_zero (VStr c) (VStr c) = true.
Proof. simpl. apply String.eqb_refl. Qed.

Section MapFacts.
Context {V : Type}.
Implicit Types (m : JSMap V) (k : value).

Lemma Map_get_set_same k (v : V) m :
  same_value_zero k k = true -> Map_get k (Map_set k v m) = Some v.
Proof.
  intros Hk. induction m as [|[k' v'] r IH]; simpl.
  - now rewrite Hk.
  - destruct (same_value_zero k k') eqn:E; simpl; rewrite E; auto.
Qed.

Lemma Map_get_delete_same k m : Map_get k (Map_delete k m) = None.
Proof.
  unfold Map_delete. induction m as [|[k' v'] r IH]; simpl; auto.
  destruct (same_value_zero k k') eqn:E; simpl; auto.
  now rewrite E.
Qed.

Lemma Map_delete_idem k m : Map_delete k (Map_delete k m) = Map_delete k m.
Proof.
  unfold Map_delete. induction m as [|[k' v'] r IH]; simpl; auto.
  destruct (same_value_zero k k') eqn:E; simpl; auto.
  rewrite E. simpl. now rewrite IH.
Qed.

Lemma Map_get_None_delete k m : Map_get k m = None -> Map_delete k m = m.
Proof.
  unfold Map_delete. induction m as [|[k' v'] r IH]; simpl; auto.
  destruct (same_value_zero k k') eqn:E; simpl; [discriminate|].
  intros H. now rewrite IH.
Qed.

End MapFacts.

(** ** C5: the correlation store and the webhook's lookup *)

(** C5. The map itself does what is asked of it: a lookup after [put]
    finds the entry, a lookup after [delete] finds none.  But the
    webhook's lookup (line 205) and its delete (line 254) are not one
    step, and the log line between them can throw.  Below, [p] is put
    under the channel, a first webhook for the channel brings the
    structured payload of the README: it reads [p], is answered 500
    and leaves [p] in the store.  The second webhook for the channel
    therefore finds [p] again, not nothing: its record carries the
    prompt and id of [p].  Only then is the entry gone. *)
Theorem failed_webhook_keeps_pending :
  (forall (c : string) (p : Pending.t) (m : JSMap Pending.t),
      Map_get (VStr c) (put (VStr c) p m) = Some p
      /\ Map_get (VStr c) (Map_delete (VStr c) (put (VStr c) p m)) = None)
  /\ (let c := VStr "test-channel" in
      let st0 := {| conversations := []; pendingRequests := put c pending0 [] |} in
      let out1 := webhook cfg0 (world0 (NoReply "")) st0
                    (unsigned_request (envelope "success" structured_data)) in
      let out2 := webhook cfg0 (world0 (NoReply "")) (wh_state out1)
                    (unsigned_request (envelope "success" (text_data "Hi"))) in
      status (wh_response out1) = 500
      /\ Map_get c (pendingRequests (wh_state out1)) = Some pending0
      /\ status (wh_response out2) = 200
      /\ map (fun r => (Rec.id r, Rec.prompt r)) (records_of (wh_state out2))
         = [(VStr (Pending.messageId pending0), Pending.prompt pending0)]
      /\ Map_get c (pendingRequests (wh_state out2)) = None).
Proof.
  split.
  - intros c p m. split.
    + apply Map_get_set_same, same_value_zero_string.
    + apply Map_get_delete_same.
  - repeat split.
Qed.

(** ** C6: the shape of the forwarded data *)

Lemma object_test (v : value) :
  truthy v && (typeof v =? "object")%string && negb (isArray v)
    && negb (same_value_zero v VNull)
  = match v with VObj _ => true | _ => false end.
Proof. destruct v as [| |b|n|s|l|l]; simpl; try reflexivity.
  - now destruct b.
  - now destruct (n =? 0).
  - destruct (s =? "")%string; reflexivity.
Qed.


Lemma enrichedData_ids (callbackData messageId conversationId : value) :
  exists l,
    enrichedData_of callbackData messageId conversationId = VObj l
    /\ assoc "id" l = Some messageId
    /\ assoc "conversation_id" l = Some conversationId.
Proof.
  unfold enrichedData_of. rewrite object_test.
  destruct callbackData as [| |b|n|s|l|l]; simpl;
    try (eexists; split; [reflexivity|split; reflexivity]).
  eexists; split; [reflexivity|]. split.
  - rewrite assoc_obj_set_other by reflexivity. apply assoc_obj_set_same.
  - apply assoc_obj_set_same.
Qed.


(** ** The webhook handler, step by step *)

Lemma destructure_ok (first what : string) (v : value) :
  nullish v = false -> destructure first what v = Ok v.
Proof. destruct v; simpl; intros H; try discriminate; reflexivity. Qed.

(** The handler answers 200 or 500 and nothing else. *)
Lemma webhook_status (cfg : Config) (w : WebhookWorld) (st : State) (req : Request) :
  status (wh_response (webhook cfg w st req)) = 200
  \/ status (wh_response (webhook cfg w st req)) = 500.
Proof.
  unfold webhook.
  destruct (destructure _ _ (body req)) as [b|e]; [|now right].
  destruct (log_record _) as [u|e]; [|now right].
  destruct (truthy (callbackUrl_of req)); simpl; [|now left].
  destruct (callbackUrl_of req); try now left.
  destruct (prefix "http" s); simpl; [|now left].
  destruct (send_callback _ _ _ _ _ _) as [[u'|e] sent]; [now left|now right].
Qed.

(** Of the request's headers the handler reads one, the callback
    address; no signature or timestamp header reaches it. *)
Lemma webhook_reads_one_header (cfg : Config) (w : WebhookWorld) (st : State)
    (r1 r2 : Request) :
  body r1 = body r2 ->
  header "x-modelriver-callback-url" r1 = header "x-modelriver-callback-url" r2 ->
  webhook cfg w st r1 = webhook cfg w st r2.
Proof.
  intros Hb Hh. unfold webhook, callbackUrl_of. now rewrite Hb, Hh.
Qed.

(** Once the log line of 241-245 is passed, the record is in the
    conversation log and the pending entry is gone, whatever happens
    to the callback. *)
Lemma webhook_stores (cfg : Config) (w : WebhookWorld) (st : State) (req : Request) :
  let b := body req in
  let p := Map_get (get_prop "channel_id" b) (pendingRequests st) in
  nullish b = false ->
  log_record (record_of w p b) = Ok tt ->
  wh_state (webhook cfg w st req)
  = {| conversations :=
         append_record w (stored_conversationId p) (record_of w p b) (conversations st);
       pendingRequests := Map_delete (get_prop "channel_id" b) (pendingRequests st) |}.
Proof.
  intros b p Hb Hlog. unfold webhook. fold b.
  rewrite (destructure_ok _ _ _ Hb). fold p. rewrite Hlog.
  destruct (truthy (callbackUrl_of req)); simpl; [|reflexivity].
  destruct (callbackUrl_of req); try reflexivity.
  destruct (prefix "http" s); simpl; [|reflexivity].
  destruct (send_callback _ _ _ _ _ _) as [[u'|e] sent]; reflexivity.
Qed.

(** When the log line throws, nothing is stored and nothing is sent. *)
Lemma webhook_log_throws (cfg : Config) (w : WebhookWorld) (st : State) (req : Request)
    (e : thrown) :
  let b := body req in
  let p := Map_get (get_prop "channel_id" b) (pendingRequests st) in
  nullish b = false ->
  log_record (record_of w p b) = Throw e ->
  webhook cfg w st req
  = {| wh_state := st; wh_response := webhook_catch e; wh_callback := None |}.
Proof.
  intros b p Hb Hlog. unfold webhook. fold b.
  rewrite (destructure_ok _ _ _ Hb). fold p. now rewrite Hlog.
Qed.

(** ** C1: a webhook without a signature header *)

(** C1. The handler has no signature gate: it never answers 401, and
    a webhook that carries no signature header is processed like any
    other.  At the request below (a timestamp header, no signature
    header, a text payload for an unknown channel) the answer is 200
    with a success flag, and a record is created. *)
Theorem unsigned_webhook_is_processed :
  (forall cfg w st req, status (wh_response (webhook cfg w st req)) <> 401)
  /\ (let req := unsigned_request (envelope "success" (text_data "Hello from AI")) in
      let out := webhook cfg0 (world0 (NoReply "")) initial req in
      header "x-signature" req = VUndefined
      /\ header "x-modelriver-signature" req = VUndefined
      /\ status (wh_response out) = 200
      /\ get_prop "success" (json (wh_response out)) = VBool true
      /\ map Rec.response (records_of (wh_state out)) = [VStr "Hello from AI"]).
Proof.
  split.
  - intros cfg w st req.
    destruct (webhook_status cfg w st req) as [-> | ->]; discriminate.
  - repeat split.
Qed.

(** ** C2: the response value *)

Lemma structured_test (x : value) :
  truthy x && (typeof x =? "object")%string
    && negb (truthy (get_prop "choices" x)) && negb (truthy (get_prop "response" x))
  = object_like x
    && negb (truthy (get_prop "choices" x)) && negb (truthy (get_prop "response" x)).
Proof.
  destruct x as [| |b|n|s|l|l]; simpl; try reflexivity.
  - now destruct b.
  - now destruct (n =? 0).
  - now destruct (s =? "")%string.
Qed.

(** The rule as the specification words it fails on the code: an
    array is passed through although it is not a non-array object,
    and so is an object whose [choices] field is there but [null]. *)
Lemma response_rule_counterexample :
  aiResponse_of (VArr [VNum 1; VNum 2]) = VArr [VNum 1; VNum 2]
  /\ spec_response_value (VArr [VNum 1; VNum 2]) = VStr "[1,2]"
  /\ aiResponse_of (VObj [("choices", VNull)]) = VObj [("choices", VNull)]
  /\ spec_response_value (VObj [("choices", VNull)])
     = JSON_stringify (VObj [("choices", VNull)])
  /\ aiResponse_of (VArr [VNum 1; VNum 2]) <> spec_response_value (VArr [VNum 1; VNum 2])
  /\ aiResponse_of (VObj [("choices", VNull)])
     <> spec_response_value (VObj [("choices", VNull)]).
Proof. repeat split; try reflexivity; discriminate. Qed.

(** C2, amended. For every selected payload [x]: if [x] is an object
    or an array whose [choices] and [response] properties are both
    absent or falsy, the response value of the record is [x] itself;
    otherwise it is [choices[0].message.content] when that is truthy,
    else [response.choices[0].message.content] when that is truthy,
    else the JSON text of [x].  The record built from an envelope
    carries that value for the payload selected from it. *)
Theorem aiResponse_rule (x : value) :
  (object_like x = true ->
   truthy (get_prop "choices" x) = false ->
   truthy (get_prop "response" x) = false ->
   aiResponse_of x = x)
  /\ (object_like x
        && negb (truthy (get_prop "choices" x))
        && negb (truthy (get_prop "response" x)) = false ->
      aiResponse_of x
      = if truthy (content_path x) then content_path x
        else if truthy (content_path (opt_get "response" x))
             then content_path (opt_get "response" x)
        else JSON_stringify x)
  /\ (forall (w : WebhookWorld) (p : option Pending.t) (b : value),
         Rec.response (record_of w p b)
         = aiResponse_of (js_or (opt_get "data" (get_prop "ai_response" b))
                                (get_prop "data" b))).
Proof.
  split; [|split].
  - intros Ho Hc Hr. unfold aiResponse_of.
    now rewrite structured_test, Ho, Hc, Hr.
  - intros H. unfold aiResponse_of. rewrite structured_test, H.
    unfold js_or. reflexivity.
  - intros w p b. simpl. unfold responseDataToProcess_of, responseData_of, js_or.
    destruct (truthy (opt_get "data" (get_prop "ai_response" b))) eqn:E1.
    + now rewrite E1.
    + destruct (truthy (get_prop "data" b)) eqn:E2; now rewrite ?E2.
Qed.

Lemma aiResponse_rule_witness :
  aiResponse_of structured_data = structured_data
  /\ aiResponse_of (text_data "x") = VStr "x".
Proof.
  split.
  - apply (proj1 (aiResponse_rule structured_data)); reflexivity.
  - exact (proj1 (proj2 (aiResponse_rule (text_data "x"))) eq_refl).
Defined.

(** On the payloads the two rules were written for they agree: the
    code gives what the specification says whenever the payload is not
    an array, a [choices] or [response] field that is there is truthy,
    and a content path that leads somewhere leads to a truthy value. *)
Lemma aiResponse_agrees_with_spec (x : value) :
  isArray x = false ->
  (has_field "choices" x = true -> truthy (get_prop "choices" x) = true) ->
  (has_field "response" x = true -> truthy (get_prop "response" x) = true) ->
  (nullish (content_path x) = false -> truthy (content_path x) = true) ->
  (nullish (content_path (opt_get "response" x)) = false ->
   truthy (content_path (opt_get "response" x)) = true) ->
  aiResponse_of x = spec_response_value x.
Proof.
  intros Ha Hc Hr H1 H2.
  assert (Hfall :
    js_or (content_path x)
      (js_or (content_path (opt_get "response" x)) (JSON_stringify x))
    = if negb (nullish (content_path x)) then content_path x
      else if negb (nullish (content_path (opt_get "response" x)))
           then content_path (opt_get "response" x)
      else JSON_stringify x).
  { unfold js_or.
    destruct (nullish (content_path x)) eqn:N1; simpl.
    - assert (truthy (content_path x) = false) as ->
        by (destruct (content_path x); simpl in *; congruence).
      destruct (nullish (content_path (opt_get "response" x))) eqn:N2; simpl.
      + assert (truthy (content_path (opt_get "response" x)) = false) as ->
          by (destruct (content_path (opt_get "response" x)); simpl in *; congruence).
        reflexivity.
      + now rewrite H2.
    - now rewrite H1. }
  unfold aiResponse_of. rewrite structured_test.
  destruct x as [| |b|n|s|l|l]; try (simpl object_like; simpl andb; exact Hfall).
  - discriminate.
  - unfold spec_response_value. simpl object_like. rewrite andb_true_l.
    unfold has_field, get_prop in *.
    destruct (assoc "choices" l) as [c|] eqn:Ec.
    + rewrite Hc by reflexivity. simpl. exact Hfall.
    + destruct (assoc "response" l) as [r|] eqn:Er.
      * rewrite Hr by reflexivity. simpl. exact Hfall.
      * reflexivity.
Qed.

(** ** Forwarding *)

(** What the [try]/[catch] around the callback comes to: the request
    always reaches axios, and only an answer of 500 or above makes the
    block throw. *)
Lemma send_callback_result (cfg : Config) (w : WebhookWorld) (b : value) (u : string)
    (messageId conversationId : value) :
  send_callback cfg w b u messageId conversationId
  = (if answered_5xx (downstream w)
     then Throw (JsError "callbackPayload is not defined")
     else Ok tt,
     Some (callback_post cfg u
             (callbackPayload_of w b
                (enrichedData_of (callbackData_of b) messageId conversationId)
                messageId conversationId))).
Proof.
  unfold send_callback.
  destruct (enrichedData_ids (callbackData_of b) messageId conversationId)
    as [l [Hl _]].
  rewrite Hl. simpl.
  destruct (downstream w) as [s d|m|m]; simpl; try reflexivity.
  unfold callback_validateStatus. destruct (s <? 500); reflexivity.
Qed.

Lemma prefix_http_truthy (u : string) :
  prefix "http" u = true -> truthy (VStr u) = true.
Proof. destruct u; simpl; [discriminate|reflexivity]. Qed.

(** The handler's answer and its outgoing request, once the log line
    is passed. *)
Lemma webhook_answer (cfg : Config) (w : WebhookWorld) (st : State) (req : Request) :
  let b := body req in
  let p := Map_get (get_prop "channel_id" b) (pendingRequests st) in
  nullish b = false ->
  log_record (record_of w p b) = Ok tt ->
  wh_response (webhook cfg w st req)
  = (if forwards req && answered_5xx (downstream w)
     then webhook_catch (JsError "callbackPayload is not defined")
     else webhook_ack (messageId_of w p))
  /\ (forwards req = false -> wh_callback (webhook cfg w st req) = None)
  /\ (forwards req = true ->
      exists post, wh_callback (webhook cfg w st req) = Some post
                   /\ VStr (url post) = callbackUrl_of req
                   /\ timeout post = Some 30000
                   /\ get_prop "data" (data post)
                      = enrichedData_of (callbackData_of b) (messageId_of w p)
                          (stored_conversationId p)).
Proof.
  intros b p Hb Hlog. unfold webhook, forwards. fold b.
  rewrite (destructure_ok _ _ _ Hb). fold p. rewrite Hlog.
  destruct (callbackUrl_of req) as [| |x|n|u|l|l] eqn:Eu;
    try (destruct (negb (truthy _)); simpl;
         (split; [reflexivity|split; [reflexivity|discriminate]])).
  destruct (prefix "http" u) eqn:Ep.
  - rewrite (prefix_http_truthy u Ep). simpl negb. cbv iota.
    rewrite send_callback_result. rewrite andb_true_l.
    destruct (answered_5xx (downstream w)); simpl;
      (split; [reflexivity|split; [discriminate|]]); intros _;
      eexists; (split; [reflexivity|]); simpl; repeat split;
      destruct (enrichedData_ids (callbackData_of b) (messageId_of w p)
                  (stored_conversationId p)) as [l [Hl _]];
      rewrite Hl; reflexivity.
  - destruct (negb (truthy (VStr u))); simpl;
      (split; [reflexivity|split; [reflexivity|discriminate]]).
Qed.

(** ** C3: where a record's identifiers come from *)

Lemma Map_get_In {V : Type} (k : value) (v : V) (m : JSMap V) :
  Map_get k m = Some v -> exists k', In (k', v) m.
Proof.
  induction m as [|[k' v'] r IH]; simpl; [discriminate|].
  destruct (same_value_zero k k').
  - intros [= ->]. exists k'. now left.
  - intros H. destruct (IH H) as [k'' Hin]. exists k''. now right.
Qed.

Lemma In_Map_set {V : Type} (k k' : value) (v q : V) (m : JSMap V) :
  In (k', q) (Map_set k v m) -> q = v \/ In (k', q) m.
Proof.
  induction m as [|[k'' v''] r IH]; simpl.
  - intros [[= _ <-]|[]]. now left.
  - destruct (same_value_zero k k''); simpl.
    + intros [[= <- <-]|H]; [now left|right; now right].
    + intros [H|H]; [right; now left|].
      destruct (IH H) as [->|Hin]; [now left|right; now right].
Qed.

Lemma In_Map_delete {V : Type} (k : value) (e : value * V) (m : JSMap V) :
  In e (Map_delete k m) -> In e m.
Proof. unfold Map_delete. intros H. now apply filter_In in H. Qed.

(** The record of a webhook for an unknown channel has no conversation
    id: the field is [undefined], not a generated identifier. *)
Lemma record_identifiers_counterexample :
  let req := unsigned_request (envelope "success" (text_data "Hi")) in
  let out := webhook cfg0 (world0 (NoReply "")) initial req in
  status (wh_response out) = 200
  /\ map Rec.id (records_of (wh_state out)) = [VStr (fresh_uuid (world0 (NoReply "")))]
  /\ map Rec.conversation_id (records_of (wh_state out)) = [VUndefined].
Proof. repeat split. Qed.

(** C3, amended. For every record the webhook handler builds: its
    [id] is the matched pending request's message id, or the freshly
    generated uuid when there is no match, and is always there; its
    [conversation_id] is the matched pending request's conversation
    id, and is [undefined] when there is no match; neither is read
    from the envelope, which only supplies the channel id the store is
    searched for. *)
Theorem record_identifiers (w : WebhookWorld) (st : State) (b : value) :
  let p := Map_get (get_prop "channel_id" b) (pendingRequests st) in
  let r := record_of w p b in
  (forall q, p = Some q -> Pending.messageId q <> "" ->
     Rec.id r = VStr (Pending.messageId q)
     /\ Rec.conversation_id r = Pending.conversationId q)
  /\ (p = None ->
      Rec.id r = VStr (fresh_uuid w) /\ Rec.conversation_id r = VUndefined)
  /\ (exists s, Rec.id r = VStr s)
  /\ (forall b',
        get_prop "channel_id" b' = get_prop "channel_id" b ->
        let r' := record_of w (Map_get (get_prop "channel_id" b') (pendingRequests st)) b' in
        Rec.id r' = Rec.id r /\ Rec.conversation_id r' = Rec.conversation_id r).
Proof.
  intros p r. subst r. split; [|split; [|split]].
  - intros q Hq Hid. rewrite Hq. simpl. unfold messageId_of, js_or. simpl.
    apply String.eqb_neq in Hid. rewrite Hid. now simpl.
  - intros Hp. rewrite Hp. now simpl.
  - simpl. unfold messageId_of, js_or.
    destruct (truthy (stored_messageId p)) eqn:E.
    + destruct p as [q|]; simpl in *; [|discriminate]. now eexists.
    + now eexists.
  - intros b' Hb'. simpl. now rewrite Hb'.
Qed.

Lemma record_identifiers_witness :
  (let r := record_of (world0 (NoReply "")) (Some pending0)
              (envelope "success" (text_data "Hi")) in
   Rec.id r = VStr (Pending.messageId pending0)
   /\ Rec.conversation_id r = Pending.conversationId pending0)
  /\ (let r := record_of (world0 (NoReply "")) None
                 (envelope "success" (text_data "Hi")) in
      Rec.id r = VStr (fresh_uuid (world0 (NoReply "")))
      /\ Rec.conversation_id r = VUndefined).
Proof.
  split.
  - apply (proj1 (record_identifiers (world0 (NoReply "")) waiting
                    (envelope "success" (text_data "Hi"))) pending0).
    + reflexivity.
    + discriminate.
  - apply (proj1 (proj2 (record_identifiers (world0 (NoReply "")) initial
                           (envelope "success" (text_data "Hi"))))).
    reflexivity.
Defined.

(** ** C4: a webhook for an unknown channel *)

Lemma push_message_In (k : value) (r : Rec.t) (m : JSMap Conversation) :
  Map_has k m = true ->
  In r (flat_map (fun e => messages (snd e)) (push_message k r m)).
Proof.
  unfold Map_has. induction m as [|[k' c] rest IH]; simpl; [discriminate|].
  destruct (same_value_zero k k'); simpl; intros H; apply in_or_app.
  - left. apply in_or_app. right. now left.
  - right. now apply IH.
Qed.

Lemma append_record_In (w : WebhookWorld) (k : value) (r : Rec.t)
    (m : JSMap Conversation) :
  In r (flat_map (fun e => messages (snd e)) (append_record w k r m)).
Proof.
  unfold append_record. destruct (Map_has k m) eqn:E.
  - now apply push_message_In.
  - rewrite flat_map_app. apply in_or_app. right. simpl. now left.
Qed.

Lemma log_record_ok (r : Rec.t) :
  text_or_absent (Rec.prompt r) = true ->
  text_or_absent (Rec.response r) = true ->
  log_record r = Ok tt.
Proof.
  unfold log_record. intros Hp Hr.
  destruct (Rec.prompt r); try discriminate; simpl;
    destruct (Rec.response r); try discriminate; reflexivity.
Qed.

(** The statement as worded fails in three ways for an unknown channel.
    A text payload is acknowledged, but only the record id is
    generated: the record has no conversation id.  The structured
    payload of the README is not acknowledged at all: the handler
    answers 500 and stores nothing.  And so is a request that comes
    without a body: line 187 throws on it. *)
Lemma unknown_channel_counterexample :
  (let req := unsigned_request (envelope "success" (text_data "Hi")) in
   let out := webhook cfg0 (world0 (NoReply "")) initial req in
   Map_get (get_prop "channel_id" (body req)) (pendingRequests initial) = None
   /\ status (wh_response out) = 200
   /\ map Rec.conversation_id (records_of (wh_state out)) = [VUndefined])
  /\ (let req := unsigned_request (envelope "success" structured_data) in
      let out := webhook cfg0 (world0 (NoReply "")) initial req in
      Map_get (get_prop "channel_id" (body req)) (pendingRequests initial) = None
      /\ status (wh_response out) = 500
      /\ records_of (wh_state out) = [])
  /\ (let req := unsigned_request VUndefined in
      let out := webhook cfg0 (world0 (NoReply "")) initial req in
      Map_get (get_prop "channel_id" (body req)) (pendingRequests initial) = None
      /\ status (wh_response out) = 500
      /\ records_of (wh_state out) = []).
Proof. repeat split. Qed.

(** C4, amended. For every inbound webhook with a parsed body (not
    [null] or missing) whose channel id has no entry in the
    correlation store, whose response value is text (or absent) and
    whose callback, if one is posted, is not answered with a 5xx
    status: the handler answers 200 with a success flag and the
    freshly generated record id; the record carries that id, the
    prompt "Unknown prompt" and no conversation id, and it is stored,
    in the conversation kept under the key [undefined]; the
    correlation store is left as it was. *)
Theorem unknown_channel_webhook (cfg : Config) (w : WebhookWorld) (st : State)
    (req : Request) :
  let b := body req in
  let out := webhook cfg w st req in
  let r := record_of w None b in
  nullish b = false ->
  Map_get (get_prop "channel_id" b) (pendingRequests st) = None ->
  text_or_absent (aiResponse_of (responseDataToProcess_of b)) = true ->
  forwards req && answered_5xx (downstream w) = false ->
  status (wh_response out) = 200
  /\ json (wh_response out)
     = VObj [("success", VBool true); ("message", VStr "Webhook processed");
             ("record_id", VStr (fresh_uuid w))]
  /\ Rec.id r = VStr (fresh_uuid w)
  /\ Rec.prompt r = VStr "Unknown prompt"
  /\ Rec.conversation_id r = VUndefined
  /\ conversations (wh_state out) = append_record w VUndefined r (conversations st)
  /\ In r (records_of (wh_state out))
  /\ pendingRequests (wh_state out) = pendingRequests st.
Proof.
  intros b out r Hb Hp Htext Hfw.
  assert (Hlog : log_record (record_of w (Map_get (get_prop "channel_id" b)
                                             (pendingRequests st)) b) = Ok tt).
  { rewrite Hp. apply log_record_ok; [reflexivity|exact Htext]. }
  pose proof (webhook_stores cfg w st req Hb Hlog) as Hst.
  destruct (webhook_answer cfg w st req Hb Hlog) as [Hans _].
  fold b in Hst, Hans. rewrite Hp in Hst, Hans. rewrite Hfw in Hans.
  fold out in Hst, Hans. simpl in Hst.
  rewrite Hans. unfold records_of. rewrite Hst. simpl.
  repeat split.
  - apply append_record_In.
  - now apply Map_get_None_delete.
Qed.

Lemma unknown_channel_webhook_witness :
  let req := unsigned_request (envelope_with_callback (text_data "Hi")) in
  let out := webhook cfg0 (world0 (Replied 404 (VStr "Not Found"))) initial req in
  status (wh_response out) = 200
  /\ In (record_of (world0 (Replied 404 (VStr "Not Found"))) None (body req))
        (records_of (wh_state out)).
Proof.
  pose proof (unknown_channel_webhook cfg0 (world0 (Replied 404 (VStr "Not Found")))
                initial
                (unsigned_request (envelope_with_callback (text_data "Hi")))
                eq_refl eq_refl eq_refl eq_refl) as H.
  split; [exact (proj1 H)|].
  exact (proj1 (proj2 (proj2 (proj2 (proj2 (proj2 (proj2 H))))))).
Defined.

(** ** C7: what a forwarding failure does to the acknowledgment *)

(** The callback request carries the 30 second timeout and accepts
    every status below 500. *)
Lemma callback_post_policy (cfg : Config) (u : string) (payload : value) :
  timeout (callback_post cfg u payload) = Some 30000
  /\ forall s, validateStatus (callback_post cfg u payload) s = (s <? 500).
Proof. split; reflexivity. Qed.

(** A 4xx answer resolves the call: it is not an error. *)
Lemma callback_4xx_resolves (cfg : Config) (u : string) (payload d : value) (s : Z) :
  400 <= s < 500 ->
  axios_post (callback_post cfg u payload) (Replied s d) = Ok (s, d).
Proof.
  intros Hs. simpl. unfold callback_validateStatus.
  assert ((s <? 500) = true) as -> by (apply Z.ltb_lt; lia). reflexivity.
Qed.

(** With the record stored, the acknowledgment is 200 unless the
    callback address answers 500 or above; a missing answer (network
    failure, timeout) and a 4xx answer leave it at 200. *)
Lemma forwarding_outcomes (cfg : Config) (w : WebhookWorld) (st : State) (req : Request) :
  let b := body req in
  let p := Map_get (get_prop "channel_id" b) (pendingRequests st) in
  nullish b = false ->
  log_record (record_of w p b) = Ok tt ->
  forwards req = true ->
  (answered_5xx (downstream w) = false ->
   wh_response (webhook cfg w st req) = webhook_ack (messageId_of w p))
  /\ (answered_5xx (downstream w) = true ->
      wh_response (webhook cfg w st req)
      = {| status := 500;
           json := VObj [("error", VStr "callbackPayload is not defined")] |}).
Proof.
  intros b p Hb Hlog Hf.
  destruct (webhook_answer cfg w st req Hb Hlog) as [Hans _].
  fold b p in Hans. rewrite Hf in Hans. simpl in Hans.
  split; intros H5; rewrite H5 in Hans; exact Hans.
Qed.

(** C7. The request below carries a callback address, and the address
    answers 503.  The record is stored, the callback is posted with
    its 30 second timeout, and then the [catch] block reads
    [callbackPayload], which is out of its scope: the webhook is
    answered 500, not 200. *)
Theorem forwarding_5xx_fails_the_webhook :
  let req := unsigned_request (envelope_with_callback (text_data "Hi")) in
  let out := webhook cfg0 (world0 (Replied 503 (VStr "Service Unavailable"))) initial req in
  map Rec.response (records_of (wh_state out)) = [VStr "Hi"]
  /\ option_map timeout (wh_callback out) = Some (Some 30000)
  /\ status (wh_response out) = 500
  /\ json (wh_response out) = VObj [("error", VStr "callbackPayload is not defined")].
Proof. repeat split. Qed.

(** ** C10: the envelope's [status] *)

Lemma get_prop_off_status (k : string) (s : value) (l : list (string * value)) :
  (k =? "status")%string = false ->
  get_prop k (VObj (obj_set "status" s l)) = get_prop k (VObj l).
Proof. intros Hk. unfold get_prop. now rewrite assoc_obj_set_other. Qed.

Ltac off_status := rewrite ?get_prop_off_status by reflexivity.

Lemma record_of_off_status (w : WebhookWorld) (p : option Pending.t) (s : value)
    (l : list (string * value)) :
  record_of w p (VObj (obj_set "status" s l)) = record_of w p (VObj l).
Proof.
  unfold record_of, responseDataToProcess_of, responseData_of, usage_of.
  off_status. reflexivity.
Qed.

Lemma send_callback_off_status (cfg : Config) (w : WebhookWorld) (s : value)
    (l : list (string * value)) (u : string) (messageId conversationId : value) :
  send_callback cfg w (VObj (obj_set "status" s l)) u messageId conversationId
  = send_callback cfg w (VObj l) u messageId conversationId.
Proof.
  unfold send_callback, callbackPayload_of, callbackData_of, responseData_of.
  off_status. reflexivity.
Qed.

(** The handler never looks at [status]: setting the field of an
    envelope to any value changes nothing in the outcome, so two
    envelopes that differ only there are processed alike. *)
Lemma webhook_ignores_status (cfg : Config) (w : WebhookWorld) (st : State)
    (h : list (string * string)) (l : list (string * value)) (s s' : value) :
  webhook cfg w st {| headers := h; body := VObj (obj_set "status" s l) |}
  = webhook cfg w st {| headers := h; body := VObj (obj_set "status" s' l) |}.
Proof.
  unfold webhook, callbackUrl_of, header. cbn [body headers destructure].
  rewrite !record_of_off_status. off_status.
  destruct (log_record _); [|reflexivity].
  destruct (negb (truthy _)); [reflexivity|].
  destruct (js_or _ _); try reflexivity.
  destruct (negb (prefix "http" _)); [reflexivity|].
  now rewrite !send_callback_off_status.
Qed.

(** C10. The handler never looks at [status], so two envelopes that
    differ only there always come out the same; but they need not come
    out as a stored record and a 200.  With the structured payload of
    the README and the statuses "success" and "error", the log line of
    241-245 throws on the object in both runs: each is answered 500,
    no record is created and the pending request stays in the store. *)
Theorem status_pair_is_rejected :
  (forall cfg w st h l s s',
      webhook cfg w st {| headers := h; body := VObj (obj_set "status" s l) |}
      = webhook cfg w st {| headers := h; body := VObj (obj_set "status" s' l) |})
  /\ (let run := fun s =>
        webhook cfg0 (world0 (NoReply "")) waiting
          (unsigned_request (envelope s structured_data)) in
      run "success" = run "error"
      /\ status (wh_response (run "success")) = 500
      /\ json (wh_response (run "success"))
         = VObj [("error", VStr "record.response?.substring is not a function")]
      /\ records_of (wh_state (run "success")) = []
      /\ wh_state (run "success") = waiting).
Proof.
  split; [exact webhook_ignores_status|repeat split].
Qed.

(** ** [/chat]: preconditions and dispatch *)

(** The request of line 123 is made exactly when a body was parsed,
    the message is truthy and the key is configured. *)
Lemma chat_dispatched (cfg : Config) (w : ChatWorld) (st : State) (req : Request)
    (post : HttpPost) :
  chat_dispatch (chat cfg w st req) = Some post ->
  nullish (body req) = false
  /\ truthy (get_prop "message" (body req)) = true
  /\ truthy (api_key_value cfg) = true.
Proof.
  unfold chat. destruct (nullish (body req)) eqn:Hb.
  - destruct (body req); try discriminate Hb; simpl; discriminate.
  - rewrite (destructure_ok _ _ _ Hb).
    destruct (truthy (get_prop "message" (body req))) eqn:Em; simpl; [|discriminate].
    destruct (truthy (api_key_value cfg)) eqn:Ek; simpl; [|discriminate].
    intros _. repeat split.
Qed.

Lemma chat_reaches_dispatch (cfg : Config) (w : ChatWorld) (st : State) (req : Request) :
  nullish (body req) = false ->
  truthy (get_prop "message" (body req)) = true ->
  truthy (api_key_value cfg) = true ->
  exists post,
    url post = (MODELRIVER_API_URL cfg ++ "/v1/ai/async")%string
    /\ validateStatus post = status_2xx
    /\ chat cfg w st req
       = match axios_post post (provider w) with
         | Throw e =>
             {| chat_state := st; chat_response := chat_catch e;
                chat_dispatch := Some post |}
         | Ok (_, response_data) =>
             match destructure "channel_id" "response.data" response_data with
             | Throw e =>
                 {| chat_state := st; chat_response := chat_catch e;
                    chat_dispatch := Some post |}
             | Ok d =>
                 {| chat_state :=
                      {| conversations := conversations st;
                         pendingRequests :=
                           put (get_prop "channel_id" d)
                             {| Pending.prompt := get_prop "message" (body req);
                                Pending.timestamp := stored_now w;
                                Pending.conversationId :=
                                  js_or (get_prop "conversationId" (body req))
                                        (VStr (conversation_uuid w));
                                Pending.messageId := message_uuid w |}
                             (pendingRequests st) |};
                    chat_response :=
                      {| status := 200;
                         json := VObj [("channel_id", get_prop "channel_id" d);
                                       ("ws_token", get_prop "ws_token" d);
                                       ("websocket_url", get_prop "websocket_url" d);
                                       ("websocket_channel",
                                         get_prop "websocket_channel" d);
                                       ("project_id", get_prop "project_id" d)] |};
                    chat_dispatch := Some post |}
             end
         end.
Proof.
  intros Hb Hm Hk. unfold chat.
  rewrite (destructure_ok _ _ _ Hb), Hm, Hk. simpl negb. cbv iota.
  eexists. split; [|split; [|reflexivity]]; reflexivity.
Qed.

(** The 400 is for a message missing from a body, not for a missing
    body: a request that comes without one has no message either, but
    line 80 throws on it and the answer is 500. *)
Lemma chat_preconditions_counterexample :
  let req := {| headers := []; body := VUndefined |} in
  let out := chat cfg0 (chat_world0 (NoReply "")) initial req in
  truthy (get_prop "message" (body req)) = false
  /\ status (chat_response out) = 500
  /\ status (chat_response out) <> 400
  /\ json (chat_response out)
     = VObj [("error",
              VStr "Cannot destructure property 'message' of 'req.body' as it is undefined.");
             ("details", VUndefined)].
Proof. repeat split. discriminate. Qed.

(** C8, amended. For a request with a parsed body (not [null] or
    missing), [POST /chat] answers 400 when the message is absent or
    empty (or otherwise falsy) and 500 when the message is there but
    the API key is not configured, in both cases without calling the
    provider or touching the stores, and calls the provider when the
    message is non-empty and the key configured; for every request,
    the provider is called only when a non-empty message is supplied
    and the key is configured. *)
Theorem chat_preconditions (cfg : Config) (w : ChatWorld) (st : State) (req : Request) :
  let out := chat cfg w st req in
  let message := get_prop "message" (body req) in
  (nullish (body req) = false -> truthy message = false ->
   status (chat_response out) = 400
   /\ json (chat_response out) = VObj [("error", VStr "Message is required")]
   /\ chat_dispatch out = None
   /\ chat_state out = st)
  /\ (nullish (body req) = false -> truthy message = true ->
      truthy (api_key_value cfg) = false ->
      status (chat_response out) = 500
      /\ chat_dispatch out = None
      /\ chat_state out = st)
  /\ (nullish (body req) = false -> truthy message = true ->
      truthy (api_key_value cfg) = true ->
      exists post, chat_dispatch out = Some post)
  /\ (forall post, chat_dispatch out = Some post ->
      truthy message = true /\ truthy (api_key_value cfg) = true).
Proof.
  intros out message. subst out message.
  split; [|split; [|split]].
  - intros Hb Hm. unfold chat. rewrite (destructure_ok _ _ _ Hb), Hm.
    simpl. repeat split.
  - intros Hb Hm Hk. unfold chat. rewrite (destructure_ok _ _ _ Hb), Hm, Hk.
    simpl. repeat split.
  - intros Hb Hm Hk.
    destruct (chat_reaches_dispatch cfg w st req Hb Hm Hk) as [post [_ [_ ->]]].
    destruct (axios_post post (provider w)) as [[s d]|e]; [|now eexists].
    destruct (destructure _ _ d); now eexists.
  - intros post H. now apply chat_dispatched in H.
Qed.

Lemma chat_preconditions_witness :
  status (chat_response
            (chat cfg0 (chat_world0 (NoReply "")) initial
               {| headers := []; body := VObj [] |})) = 400
  /\ status (chat_response
               (chat cfg0 (chat_world0 (NoReply "")) initial
                  {| headers := []; body := VObj [("message", VStr "")] |})) = 400
  /\ status (chat_response
               (chat {| MODELRIVER_API_URL := "https://api.modelriver.com";
                        MODELRIVER_API_KEY := None;
                        BACKEND_PUBLIC_URL := "http://localhost:4000" |}
                  (chat_world0 (NoReply "")) initial
                  {| headers := []; body := VObj [("message", VStr "Hello test")] |}))
     = 500
  /\ (exists post,
         chat_dispatch
           (chat cfg0 (chat_world0 (NoReply "")) initial
              {| headers := []; body := VObj [("message", VStr "Hello test")] |})
         = Some post).
Proof.
  split; [|split; [|split]].
  - apply (proj1 (chat_preconditions cfg0 (chat_world0 (NoReply "")) initial
                    {| headers := []; body := VObj [] |})); reflexivity.
  - apply (proj1 (chat_preconditions cfg0 (chat_world0 (NoReply "")) initial
                    {| headers := []; body := VObj [("message", VStr "")] |}));
      reflexivity.
  - apply (proj1 (proj2 (chat_preconditions _ (chat_world0 (NoReply "")) initial
                    {| headers := []; body := VObj [("message", VStr "Hello test")] |})));
      reflexivity.
  - apply (proj1 (proj2 (proj2 (chat_preconditions cfg0 (chat_world0 (NoReply ""))
                    initial
                    {| headers := []; body := VObj [("message", VStr "Hello test")] |}))));
      reflexivity.
Defined.

(** C9. When the provider call fails, with no response or with one
    outside 2xx, [POST /chat] answers 500; the answer carries the
    provider's data as [details] and the provider's [message] as
    [error] (the error's own message when the provider sent none);
    and both stores are as they were, so no pending request is left
    behind. *)
Theorem dispatch_failure (cfg : Config) (w : ChatWorld) (st : State) (req : Request)
    (post : HttpPost) :
  let out := chat cfg w st req in
  chat_dispatch out = Some post ->
  dispatch_failed (provider w) = true ->
  status (chat_response out) = 500
  /\ chat_state out = st
  /\ pendingRequests (chat_state out) = pendingRequests st
  /\ match provider w with
     | Replied s d =>
         get_prop "details" (json (chat_response out)) = d
         /\ get_prop "error" (json (chat_response out))
            = js_or (opt_get "message" d)
                (VStr ("Request failed with status code " ++ string_of_Z s))
     | NoReply m | NotSent m =>
         get_prop "details" (json (chat_response out)) = VUndefined
         /\ get_prop "error" (json (chat_response out)) = VStr m
     end.
Proof.
  intros out Hd Hf. subst out.
  destruct (chat_dispatched _ _ _ _ _ Hd) as [Hb [Hm Hk]].
  destruct (chat_reaches_dispatch cfg w st req Hb Hm Hk) as [p [Hu [Hv ->]]].
  destruct (provider w) as [s d|m|m]; simpl in Hf; unfold axios_post.
  - apply negb_true_iff in Hf. rewrite Hv, Hf. simpl. repeat split.
  - simpl. repeat split.
  - simpl. repeat split.
Qed.

Lemma dispatch_failure_witness :
  let out :=
    chat cfg0
      (chat_world0 (Replied 422 (VObj [("message", VStr "Unknown workflow");
                                       ("code", VNum 42)])))
      waiting {| headers := []; body := VObj [("message", VStr "Hello test")] |} in
  status (chat_response out) = 500
  /\ get_prop "error" (json (chat_response out)) = VStr "Unknown workflow"
  /\ pendingRequests (chat_state out) = pendingRequests waiting.
Proof.
  pose proof (dispatch_failure cfg0
    (chat_world0 (Replied 422 (VObj [("message", VStr "Unknown workflow");
                                     ("code", VNum 42)])))
    waiting {| headers := []; body := VObj [("message", VStr "Hello test")] |}
    _ eq_refl eq_refl) as H.
  split; [exact (proj1 H)|].
  split; [exact (proj2 (proj2 (proj2 (proj2 H))))|].
  exact (proj1 (proj2 (proj2 H))).
Defined.

(** ** The stores across requests *)

Lemma initial_ids_set : pending_ids_set initial.
Proof. intros k q []. Qed.

(** [/chat] changes the correlation store only by a [put] of the
    request it dispatched, and never touches the conversation log. *)
Lemma chat_state_cases (cfg : Config) (w : ChatWorld) (st : State) (req : Request) :
  chat_state (chat cfg w st req) = st
  \/ exists c,
       status (chat_response (chat cfg w st req)) = 200
       /\ chat_state (chat cfg w st req)
          = {| conversations := conversations st;
               pendingRequests :=
                 put c {| Pending.prompt := get_prop "message" (body req);
                          Pending.timestamp := stored_now w;
                          Pending.conversationId :=
                            js_or (get_prop "conversationId" (body req))
                                  (VStr (conversation_uuid w));
                          Pending.messageId := message_uuid w |}
                     (pendingRequests st) |}.
Proof.
  destruct (nullish (body req)) eqn:Hb.
  { left. unfold chat. destruct (body req); try discriminate Hb; reflexivity. }
  destruct (truthy (get_prop "message" (body req))) eqn:Hm.
  2:{ left. unfold chat. now rewrite (destructure_ok _ _ _ Hb), Hm. }
  destruct (truthy (api_key_value cfg)) eqn:Hk.
  2:{ left. unfold chat. now rewrite (destructure_ok _ _ _ Hb), Hm, Hk. }
  destruct (chat_reaches_dispatch cfg w st req Hb Hm Hk) as [p [_ [_ ->]]].
  destruct (axios_post p (provider w)) as [[s d]|e]; [|now left].
  destruct (destructure _ _ d) as [d'|e]; [|now left].
  right. eexists. split; reflexivity.
Qed.

(** An answer other than 200 from [/chat] leaves both stores alone. *)
Lemma chat_error_keeps_state (cfg : Config) (w : ChatWorld) (st : State) (req : Request) :
  status (chat_response (chat cfg w st req)) <> 200 ->
  chat_state (chat cfg w st req) = st.
Proof.
  intros H. destruct (chat_state_cases cfg w st req) as [E|[c [E _]]]; [exact E|].
  contradiction.
Qed.

Lemma chat_keeps_ids (cfg : Config) (w : ChatWorld) (st : State) (req : Request) :
  message_uuid w <> "" ->
  pending_ids_set st ->
  pending_ids_set (chat_state (chat cfg w st req)).
Proof.
  intros Hu Hst.
  destruct (chat_state_cases cfg w st req) as [->|[c [_ ->]]]; [exact Hst|].
  intros k q Hin. simpl in Hin. unfold put in Hin.
  apply In_Map_set in Hin. destruct Hin as [->|Hin]; [exact Hu|].
  now apply (Hst k q).
Qed.

(** The webhook handler changes the correlation store only by
    deleting the entry of the envelope's channel. *)
Lemma webhook_pending_cases (cfg : Config) (w : WebhookWorld) (st : State)
    (req : Request) :
  pendingRequests (wh_state (webhook cfg w st req)) = pendingRequests st
  \/ pendingRequests (wh_state (webhook cfg w st req))
     = Map_delete (get_prop "channel_id" (body req)) (pendingRequests st).
Proof.
  destruct (nullish (body req)) eqn:Hb.
  { left. unfold webhook. destruct (body req); try discriminate Hb; reflexivity. }
  destruct (log_record (record_of w (Map_get (get_prop "channel_id" (body req))
                                       (pendingRequests st)) (body req)))
    as [[]|e] eqn:Hlog.
  - right. now rewrite (webhook_stores cfg w st req Hb Hlog).
  - left. now rewrite (webhook_log_throws cfg w st req e Hb Hlog).
Qed.

Lemma webhook_keeps_ids (cfg : Config) (w : WebhookWorld) (st : State) (req : Request) :
  pending_ids_set st ->
  pending_ids_set (wh_state (webhook cfg w st req)).
Proof.
  intros Hst k q Hin.
  destruct (webhook_pending_cases cfg w st req) as [E|E]; rewrite E in Hin.
  - now apply (Hst k q).
  - apply In_Map_delete in Hin. now apply (Hst k q).
Qed.

(** Under that invariant a matched webhook always reuses the stored
    message id. *)
Lemma matched_id_is_stored (w : WebhookWorld) (st : State) (c : value) (q : Pending.t) :
  pending_ids_set st ->
  Map_get c (pendingRequests st) = Some q ->
  messageId_of w (Some q) = VStr (Pending.messageId q).
Proof.
  intros Hst Hq. destruct (Map_get_In _ _ _ Hq) as [k Hin].
  pose proof (Hst k q Hin) as Hne. apply String.eqb_neq in Hne.
  unfold messageId_of, js_or. simpl. now rewrite Hne.
Qed.

(** A webhook that gets past its log line consumes the pending entry
    of its channel: the next webhook for that channel finds none. *)
Lemma webhook_consumes_pending (cfg : Config) (w : WebhookWorld) (st : State)
    (req : Request) :
  let b := body req in
  let p := Map_get (get_prop "channel_id" b) (pendingRequests st) in
  nullish b = false ->
  log_record (record_of w p b) = Ok tt ->
  Map_get (get_prop "channel_id" b) (pendingRequests (wh_state (webhook cfg w st req)))
  = None.
Proof.
  intros b p Hb Hlog. rewrite (webhook_stores cfg w st req Hb Hlog). simpl.
  apply Map_get_delete_same.
Qed.

(** The round trip of the README: a chat message is dispatched, the
    provider names a channel, the webhook for that channel brings the
    text; the record carries the prompt and the ids chosen at dispatch,
    and a second webhook for the same channel falls back to the
    placeholder prompt and a fresh id. *)
Example round_trip :
  let st1 :=
    chat_state
      (chat cfg0
         (chat_world0 (Replied 200 (VObj [("channel_id", VStr "test-channel");
                                          ("ws_token", VStr "mock-ws-token")])))
         initial {| headers := []; body := VObj [("message", VStr "Hello test")] |}) in
  let req := unsigned_request (envelope "success" (text_data "Hi")) in
  let out1 := webhook cfg0 (world0 (NoReply "")) st1 req in
  let out2 := webhook cfg0 (world0 (NoReply "")) (wh_state out1) req in
  st1 = waiting
  /\ map (fun r => (Rec.id r, Rec.prompt r, Rec.response r, Rec.conversation_id r))
         (records_of (wh_state out1))
     = [(VStr (Pending.messageId pending0), VStr "Hello test", VStr "Hi",
         Pending.conversationId pending0)]
  /\ pendingRequests (wh_state out1) = []
  /\ map (fun r => (Rec.id r, Rec.prompt r, Rec.response r, Rec.conversation_id r))
         (records_of (wh_state out2))
     = [(VStr (Pending.messageId pending0), VStr "Hello test", VStr "Hi",
         Pending.conversationId pending0);
        (VStr (fresh_uuid (world0 (NoReply ""))), VStr "Unknown prompt", VStr "Hi",
         VUndefined)].
Proof. repeat split. Qed.

(** * Further properties of the handlers *)

(** ** More on maps *)

Lemma same_value_zero_eq (a b : value) : same_value_zero a b = true -> a = b.
Proof.
  destruct a, b; simpl; try discriminate; intros H; try reflexivity.
  - apply Bool.eqb_prop in H. now subst.
  - apply Z.eqb_eq in H. now subst.
  - apply String.eqb_eq in H. now subst.
Qed.

Lemma Map_get_app {V : Type} (k : value) (m1 m2 : JSMap V) :
  Map_get k (m1 ++ m2)%list
  = match Map_get k m1 with Some v => Some v | None => Map_get k m2 end.
Proof.
  induction m1 as [|[k' v'] r IH]; simpl; [reflexivity|].
  destruct (same_value_zero k k'); [reflexivity|exact IH].
Qed.

Lemma Map_get_delete_other {V : Type} (k k' : value) (m : JSMap V) :
  same_value_zero k' k = false ->
  Map_get k' (Map_delete k m) = Map_get k' m.
Proof.
  intros Hk. unfold Map_delete. induction m as [|[k'' v] r IH]; simpl; [reflexivity|].
  destruct (same_value_zero k k'') eqn:E; simpl.
  - apply same_value_zero_eq in E. subst k''. now rewrite Hk.
  - now rewrite IH.
Qed.

Lemma Map_get_push_other (k k' : value) (r : Rec.t) (m : JSMap Conversation) :
  same_value_zero k' k = false ->
  Map_get k' (push_message k r m) = Map_get k' m.
Proof.
  intros Hk. induction m as [|[k'' c] rest IH]; simpl; [reflexivity|].
  destruct (same_value_zero k k'') eqn:E; simpl.
  - apply same_value_zero_eq in E. subst k''. now rewrite Hk.
  - now rewrite IH.
Qed.

Lemma Map_get_push_same (k : value) (r : Rec.t) (m : JSMap Conversation)
    (c : Conversation) :
  Map_get k m = Some c ->
  Map_get k (push_message k r m)
  = Some {| messages := (messages c ++ [r])%list; createdAt := createdAt c |}.
Proof.
  induction m as [|[k'' c'] rest IH]; simpl; [discriminate|].
  destruct (same_value_zero k k'') eqn:E; simpl; rewrite E.
  - now intros [= ->].
  - exact IH.
Qed.

Lemma Map_get_append_other (w : WebhookWorld) (k k' : value) (r : Rec.t)
    (m : JSMap Conversation) :
  same_value_zero k' k = false ->
  Map_get k' (append_record w k r m) = Map_get k' m.
Proof.
  intros Hk. unfold append_record. destruct (Map_has k m).
  - now apply Map_get_push_other.
  - rewrite Map_get_app. simpl. rewrite Hk. now destruct (Map_get k' m).
Qed.

Lemma Map_get_append_same (w : WebhookWorld) (k : value) (r : Rec.t)
    (m : JSMap Conversation) :
  same_value_zero k k = true ->
  Map_get k (append_record w k r m)
  = Some match Map_get k m with
         | Some c => {| messages := (messages c ++ [r])%list; createdAt := createdAt c |}
         | None => {| messages := [r]; createdAt := conversation_time w |}
         end.
Proof.
  intros Hk. unfold append_record, Map_has.
  destruct (Map_get k m) as [c|] eqn:E.
  - now apply Map_get_push_same.
  - rewrite Map_get_app, E. simpl. now rewrite Hk.
Qed.

Lemma log_record_cases (r : Rec.t) :
  (text_or_absent (Rec.prompt r) && text_or_absent (Rec.response r) = true ->
   log_record r = Ok tt)
  /\ (text_or_absent (Rec.prompt r) && text_or_absent (Rec.response r) = false ->
      exists e, log_record r = Throw e).
Proof.
  unfold log_record.
  destruct (Rec.prompt r); simpl; destruct (Rec.response r); simpl;
    split; intros H; try discriminate; try reflexivity; eexists; reflexivity.
Qed.

(** The stores after a webhook: as they were, or with the record
    appended and the channel's pending entry deleted. *)
Lemma webhook_state_cases (cfg : Config) (w : WebhookWorld) (st : State) (req : Request) :
  let b := body req in
  let p := Map_get (get_prop "channel_id" b) (pendingRequests st) in
  wh_state (webhook cfg w st req) = st
  \/ wh_state (webhook cfg w st req)
     = {| conversations :=
            append_record w (stored_conversationId p) (record_of w p b) (conversations st);
          pendingRequests := Map_delete (get_prop "channel_id" b) (pendingRequests st) |}.
Proof.
  intros b p. destruct (nullish b) eqn:Hb.
  { left. unfold webhook. fold b. destruct b; try discriminate Hb; reflexivity. }
  destruct (log_record (record_of w p b)) as [[]|e] eqn:Hlog.
  - right. exact (webhook_stores cfg w st req Hb Hlog).
  - left. now rewrite (webhook_log_throws cfg w st req e Hb Hlog).
Qed.

(** ** When the handlers fail *)

(** The webhook is answered 500 exactly when the body is [null] or
    missing, or the record's prompt or response is neither a string
    nor absent, or a callback was posted and answered with 500 or
    above; in every other case it is answered 200. *)
Theorem webhook_failure_cases (cfg : Config) (w : WebhookWorld) (st : State)
    (req : Request) :
  let b := body req in
  let r := record_of w (Map_get (get_prop "channel_id" b) (pendingRequests st)) b in
  status (wh_response (webhook cfg w st req))
  = if nullish b
       || negb (text_or_absent (Rec.prompt r) && text_or_absent (Rec.response r))
       || (forwards req && answered_5xx (downstream w))
    then 500 else 200.
Proof.
  intros b r. destruct (nullish b) eqn:Hb.
  { unfold webhook. fold b. destruct b; try discriminate Hb; reflexivity. }
  destruct (log_record_cases r) as [Hok Hthrow].
  destruct (text_or_absent (Rec.prompt r) && text_or_absent (Rec.response r)).
  - destruct (webhook_answer cfg w st req Hb (Hok eq_refl)) as [-> _].
    destruct (forwards req && answered_5xx (downstream w)); reflexivity.
  - destruct (Hthrow eq_refl) as [e He].
    now rewrite (webhook_log_throws cfg w st req e Hb He).
Qed.

(** [/chat] answers 200 exactly when a body was parsed, the message is
    truthy, the key is configured and the provider accepted the
    dispatch with a body; it answers 400 exactly when the message is
    falsy, and 500 in every other case. *)
Theorem chat_status_cases (cfg : Config) (w : ChatWorld) (st : State) (req : Request) :
  status (chat_response (chat cfg w st req))
  = if nullish (body req) then 500
    else if negb (truthy (get_prop "message" (body req))) then 400
    else if truthy (api_key_value cfg) && provider_accepted (provider w) then 200
    else 500.
Proof.
  destruct (nullish (body req)) eqn:Hb.
  { unfold chat. destruct (body req); try discriminate Hb; reflexivity. }
  destruct (truthy (get_prop "message" (body req))) eqn:Hm; simpl.
  2:{ unfold chat. now rewrite (destructure_ok _ _ _ Hb), Hm. }
  destruct (truthy (api_key_value cfg)) eqn:Hk; simpl.
  2:{ unfold chat. now rewrite (destructure_ok _ _ _ Hb), Hm, Hk. }
  destruct (chat_reaches_dispatch cfg w st req Hb Hm Hk) as [p [_ [Hv ->]]].
  destruct (provider w) as [s d|m|m]; simpl; try reflexivity.
  rewrite Hv. destruct (status_2xx s); simpl; [|reflexivity].
  destruct d; reflexivity.
Qed.

(** ** [/chat]: what a dispatch carries and leaves behind *)

Lemma chat_dispatch_is (cfg : Config) (w : ChatWorld) (st : State) (req : Request)
    (post : HttpPost) :
  chat_dispatch (chat cfg w st req) = Some post ->
  post = chat_post cfg
           (chat_payload cfg w (get_prop "message" (body req))
              (js_or (get_prop "conversationId" (body req)) (VStr (conversation_uuid w)))
              (get_prop "workflow" (body req)) (get_prop "events" (body req))).
Proof.
  unfold chat. destruct (nullish (body req)) eqn:Hb.
  - destruct (body req); try discriminate Hb; simpl; discriminate.
  - rewrite (destructure_ok _ _ _ Hb).
    destruct (truthy (get_prop "message" (body req))); simpl; [|discriminate].
    destruct (truthy (api_key_value cfg)); simpl; [|discriminate].
    destruct (axios_post _ (provider w)) as [[s d]|e]; simpl.
    + destruct (destructure _ _ d); simpl; now intros [= <-].
    + now intros [= <-].
Qed.

(** The request sent to the provider: it goes to the async endpoint
    under the configured key, asks for websocket delivery, names this
    server's webhook route, carries the message as the single user
    message, and falls back to the workflow [mr_chatbot_workflow] and
    the event list [webhook_received] when the caller names none. *)
Theorem chat_dispatch_payload (cfg : Config) (w : ChatWorld) (st : State)
    (req : Request) (post : HttpPost) :
  chat_dispatch (chat cfg w st req) = Some post ->
  url post = (MODELRIVER_API_URL cfg ++ "/v1/ai/async")%string
  /\ In ("Authorization", bearer cfg) (post_headers post)
  /\ timeout post = None
  /\ get_prop "delivery_method" (data post) = VStr "websocket"
  /\ get_prop "webhook_url" (data post)
     = VStr (BACKEND_PUBLIC_URL cfg ++ "/webhook/modelriver")
  /\ get_prop "messages" (data post)
     = VArr [VObj [("role", VStr "user");
                   ("content", get_prop "message" (body req))]]
  /\ get_prop "workflow" (data post)
     = (if truthy (get_prop "workflow" (body req))
        then get_prop "workflow" (body req) else VStr "mr_chatbot_workflow")
  /\ get_prop "events" (data post)
     = (if truthy (get_prop "events" (body req))
        then get_prop "events" (body req) else VArr [VStr "webhook_received"]).
Proof.
  intros H. apply chat_dispatch_is in H. subst post. simpl.
  repeat split. now left.
Qed.

Lemma chat_dispatch_payload_witness :
  exists post,
    chat_dispatch
      (chat cfg0 (chat_world0 (NoReply "")) initial
         {| headers := []; body := VObj [("message", VStr "Hello test")] |})
    = Some post
    /\ get_prop "workflow" (data post) = VStr "mr_chatbot_workflow"
    /\ get_prop "webhook_url" (data post)
       = VStr "http://localhost:4000/webhook/modelriver".
Proof.
  eexists. split; [reflexivity|].
  pose proof (chat_dispatch_payload cfg0 (chat_world0 (NoReply "")) initial
                {| headers := []; body := VObj [("message", VStr "Hello test")] |}
                _ eq_refl) as H.
  split; [exact (proj1 (proj2 (proj2 (proj2 (proj2 (proj2 (proj2 H))))))) |].
  exact (proj1 (proj2 (proj2 (proj2 (proj2 H))))).
Defined.

(** When [/chat] answers 200, the pending request it stored holds the
    very identifiers and prompt it announced to the provider in the
    request's [metadata], under the channel id the provider returned,
    and the answer hands that channel id back to the caller. *)
Theorem chat_store_matches_metadata (cfg : Config) (w : ChatWorld) (st : State)
    (req : Request) :
  let out := chat cfg w st req in
  status (chat_response out) = 200 ->
  exists post c q,
    chat_dispatch out = Some post
    /\ get_prop "channel_id" (json (chat_response out)) = c
    /\ pendingRequests (chat_state out) = put c q (pendingRequests st)
    /\ get_prop "message_id" (get_prop "metadata" (data post))
       = VStr (Pending.messageId q)
    /\ get_prop "conversation_id" (get_prop "metadata" (data post))
       = Pending.conversationId q
    /\ get_prop "original_prompt" (get_prop "metadata" (data post))
       = Pending.prompt q
    /\ Pending.messageId q = message_uuid w
    /\ Pending.conversationId q
       = (if truthy (get_prop "conversationId" (body req))
          then get_prop "conversationId" (body req)
          else VStr (conversation_uuid w)).
Proof.
  intros out H. subst out.
  destruct (nullish (body req)) eqn:Hb.
  { revert H. unfold chat. destruct (body req); try discriminate Hb; discriminate. }
  destruct (truthy (get_prop "message" (body req))) eqn:Hm.
  2:{ revert H. unfold chat. rewrite (destructure_ok _ _ _ Hb), Hm. discriminate. }
  destruct (truthy (api_key_value cfg)) eqn:Hk.
  2:{ revert H. unfold chat. rewrite (destructure_ok _ _ _ Hb), Hm, Hk. discriminate. }
  revert H. unfold chat. rewrite (destructure_ok _ _ _ Hb), Hm, Hk.
  simpl negb. cbv iota.
  destruct (axios_post _ (provider w)) as [[s d]|e]; [|discriminate].
  destruct (destructure _ _ d) as [d'|e]; [|discriminate].
  intros _. simpl. do 3 eexists. repeat split.
Qed.

Lemma chat_store_matches_metadata_witness :
  exists post c q,
    chat_dispatch
      (chat cfg0
         (chat_world0 (Replied 200 (VObj [("channel_id", VStr "test-channel")])))
         initial {| headers := []; body := VObj [("message", VStr "Hello test")] |})
    = Some post
    /\ c = VStr "test-channel"
    /\ get_prop "message_id" (get_prop "metadata" (data post))
       = VStr (Pending.messageId q).
Proof.
  destruct (chat_store_matches_metadata cfg0
              (chat_world0 (Replied 200 (VObj [("channel_id", VStr "test-channel")])))
              initial {| headers := []; body := VObj [("message", VStr "Hello test")] |}
              eq_refl) as [post [c [q [H1 [H2 [_ [H4 _]]]]]]].
  exists post, c, q. split; [exact H1|]. split; [|exact H4].
  rewrite <- H2. reflexivity.
Defined.

Lemma chat_error_keeps_state_witness :
  chat_state
    (chat cfg0 (chat_world0 (Replied 503 (VStr "Service Unavailable"))) waiting
       {| headers := []; body := VObj [("message", VStr "Hello test")] |})
  = waiting.
Proof.
  apply chat_error_keeps_state. simpl. discriminate.
Defined.

(** [/chat] never touches the conversation log: whatever it answers,
    every [GET /conversations/:id] answers afterwards what it answered
    before. *)
Theorem chat_keeps_log (cfg : Config) (w : ChatWorld) (st : State) (req : Request) :
  conversations (chat_state (chat cfg w st req)) = conversations st
  /\ forall id,
       get_conversation (chat_state (chat cfg w st req)) id = get_conversation st id.
Proof.
  assert (H : conversations (chat_state (chat cfg w st req)) = conversations st).
  { destruct (chat_state_cases cfg w st req) as [->|[c [_ ->]]]; reflexivity. }
  split; [exact H|]. intros id. unfold get_conversation. now rewrite H.
Qed.

Lemma chat_ok_state (cfg : Config) (w : ChatWorld) (st : State) (req : Request) :
  status (chat_response (chat cfg w st req)) = 200 ->
  chat_state (chat cfg w st req)
  = {| conversations := conversations st;
       pendingRequests :=
         put (get_prop "channel_id" (json (chat_response (chat cfg w st req))))
           {| Pending.prompt := get_prop "message" (body req);
              Pending.timestamp := stored_now w;
              Pending.conversationId :=
                js_or (get_prop "conversationId" (body req))
                      (VStr (conversation_uuid w));
              Pending.messageId := message_uuid w |}
           (pendingRequests st) |}.
Proof.
  intros H.
  destruct (nullish (body req)) eqn:Hb.
  { revert H. unfold chat. destruct (body req); try discriminate Hb; discriminate. }
  destruct (truthy (get_prop "message" (body req))) eqn:Hm.
  2:{ revert H. unfold chat. rewrite (destructure_ok _ _ _ Hb), Hm. discriminate. }
  destruct (truthy (api_key_value cfg)) eqn:Hk.
  2:{ revert H. unfold chat. rewrite (destructure_ok _ _ _ Hb), Hm, Hk. discriminate. }
  destruct (chat_reaches_dispatch cfg w st req Hb Hm Hk) as [p [_ [_ E]]].
  rewrite E in *. clear E.
  destruct (axios_post p (provider w)) as [[s d]|e]; [|discriminate H].
  destruct (destructure _ _ d) as [d'|e]; [|discriminate H].
  reflexivity.
Qed.

Lemma Map_set_length_present {V : Type} (k : value) (v v' : V) (m : JSMap V) :
  Map_get k m = Some v' -> List.length (Map_set k v m) = List.length m.
Proof.
  induction m as [|[k' v''] r IH]; simpl; [discriminate|].
  destruct (same_value_zero k k'); simpl; [reflexivity|].
  intros H. now rewrite IH.
Qed.

(** The correlation store keeps one pending request per channel id:
    when the provider hands out the same channel id to two dispatches,
    the second [/chat] replaces what the first stored (its prompt and
    ids are gone) and the store does not grow. *)
Theorem same_channel_overwrites (cfg : Config) (w1 w2 : ChatWorld) (st : State)
    (req1 req2 : Request) (c : string) :
  let out1 := chat cfg w1 st req1 in
  let out2 := chat cfg w2 (chat_state out1) req2 in
  status (chat_response out1) = 200 ->
  status (chat_response out2) = 200 ->
  get_prop "channel_id" (json (chat_response out1)) = VStr c ->
  get_prop "channel_id" (json (chat_response out2)) = VStr c ->
  option_map Pending.prompt (Map_get (VStr c) (pendingRequests (chat_state out2)))
  = Some (get_prop "message" (body req2))
  /\ option_map Pending.messageId (Map_get (VStr c) (pendingRequests (chat_state out2)))
     = Some (message_uuid w2)
  /\ List.length (pendingRequests (chat_state out2))
     = List.length (pendingRequests (chat_state out1)).
Proof.
  intros out1 out2 H1 H2 C1 C2. subst out1 out2.
  rewrite (chat_ok_state cfg w2 _ req2 H2), C2.
  rewrite (chat_ok_state cfg w1 st req1 H1), C1.
  simpl. unfold put.
  rewrite (Map_get_set_same (VStr c) _ _ (same_value_zero_string c)). simpl.
  repeat split.
  eapply Map_set_length_present.
  apply Map_get_set_same, same_value_zero_string.
Qed.

Lemma same_channel_overwrites_witness :
  let reply := Replied 200 (VObj [("channel_id", VStr "test-channel")]) in
  let out1 :=
    chat cfg0 (chat_world0 reply) initial
      {| headers := []; body := VObj [("message", VStr "first")] |} in
  let out2 :=
    chat cfg0 (chat_world0 reply) (chat_state out1)
      {| headers := []; body := VObj [("message", VStr "second")] |} in
  option_map Pending.prompt
    (Map_get (VStr "test-channel") (pendingRequests (chat_state out2)))
  = Some (VStr "second")
  /\ List.length (pendingRequests (chat_state out2)) = 1%nat.
Proof.
  pose proof (same_channel_overwrites cfg0
    (chat_world0 (Replied 200 (VObj [("channel_id", VStr "test-channel")])))
    (chat_world0 (Replied 200 (VObj [("channel_id", VStr "test-channel")])))
    initial
    {| headers := []; body := VObj [("message", VStr "first")] |}
    {| headers := []; body := VObj [("message", VStr "second")] |}
    "test-channel" eq_refl eq_refl eq_refl eq_refl) as H.
  split; [exact (proj1 H)|exact (proj2 (proj2 H))].
Defined.

(** ** The webhook and the two stores *)

Lemma webhook_reads_one_header_witness :
  webhook cfg0 (world0 (NoReply "")) waiting
    {| headers := [("x-modelriver-signature", "0123abcd");
                   ("x-modelriver-timestamp", "1234567890")];
       body := envelope "success" (text_data "Hi") |}
  = webhook cfg0 (world0 (NoReply "")) waiting
      {| headers := []; body := envelope "success" (text_data "Hi") |}.
Proof.
  apply webhook_reads_one_header; reflexivity.
Defined.

(** A webhook touches no pending request but the one of its own
    channel: every other channel id finds afterwards what it found
    before. *)
Theorem webhook_spares_other_channels (cfg : Config) (w : WebhookWorld) (st : State)
    (req : Request) (c : value) :
  same_value_zero c (get_prop "channel_id" (body req)) = false ->
  Map_get c (pendingRequests (wh_state (webhook cfg w st req)))
  = Map_get c (pendingRequests st).
Proof.
  intros Hc. destruct (webhook_state_cases cfg w st req) as [->| ->]; [reflexivity|].
  simpl. now apply Map_get_delete_other.
Qed.

Lemma webhook_spares_other_channels_witness :
  Map_get (VStr "test-channel")
    (pendingRequests
       (wh_state
          (webhook cfg0 (world0 (NoReply "")) waiting
             {| headers := [];
                body := VObj [("channel_id", VStr "other-channel");
                              ("data", text_data "Hi")] |})))
  = Some pending0.
Proof.
  rewrite webhook_spares_other_channels; reflexivity.
Defined.

Lemma Map_delete_length {V : Type} (k : value) (m : JSMap V) :
  (List.length (Map_delete k m) <= List.length m)%nat.
Proof.
  unfold Map_delete. induction m as [|e r IH]; simpl; [lia|].
  destruct (negb (same_value_zero k (fst e))); simpl; lia.
Qed.

(** The webhook never adds to the correlation store: every entry
    there afterwards was there before, and the store is no larger. *)
Theorem webhook_never_adds_pending (cfg : Config) (w : WebhookWorld) (st : State)
    (req : Request) :
  (forall e, In e (pendingRequests (wh_state (webhook cfg w st req))) ->
             In e (pendingRequests st))
  /\ (List.length (pendingRequests (wh_state (webhook cfg w st req)))
      <= List.length (pendingRequests st))%nat.
Proof.
  destruct (webhook_state_cases cfg w st req) as [->| ->]; simpl.
  - split; [auto|lia].
  - split; [intros e; apply In_Map_delete|apply Map_delete_length].
Qed.

(** The conversation log is append-only: a conversation that exists
    before a webhook exists after it with the same creation time, and
    its messages are the old ones, in order, followed by at most one
    new record. *)
Theorem log_is_append_only (cfg : Config) (w : WebhookWorld) (st : State)
    (req : Request) (k : value) (c : Conversation) :
  Map_get k (conversations st) = Some c ->
  exists c',
    Map_get k (conversations (wh_state (webhook cfg w st req))) = Some c'
    /\ createdAt c' = createdAt c
    /\ (messages c' = messages c
        \/ exists r, messages c' = (messages c ++ [r])%list).
Proof.
  intros Hk. destruct (webhook_state_cases cfg w st req) as [->| ->].
  - exists c. auto.
  - simpl.
    set (kk := stored_conversationId
                 (Map_get (get_prop "channel_id" (body req)) (pendingRequests st))).
    destruct (same_value_zero k kk) eqn:E.
    + pose proof (same_value_zero_eq _ _ E) as <-.
      rewrite (Map_get_append_same w k _ _ E), Hk.
      eexists. split; [reflexivity|]. split; [reflexivity|].
      right. eexists. reflexivity.
    + rewrite (Map_get_append_other w kk k _ _ E). exists c. auto.
Qed.

Lemma log_is_append_only_witness :
  let st1 :=
    wh_state (webhook cfg0 (world0 (NoReply "")) waiting
                (unsigned_request (envelope "success" (text_data "Hi")))) in
  exists c',
    Map_get (Pending.conversationId pending0)
      (conversations
         (wh_state (webhook cfg0 (world0 (NoReply "")) st1
                      (unsigned_request (envelope "success" (text_data "Again"))))))
    = Some c'
    /\ List.length (messages c') = 1%nat.
Proof.
  intros st1.
  destruct (log_is_append_only cfg0 (world0 (NoReply "")) st1
              (unsigned_request (envelope "success" (text_data "Again")))
              (Pending.conversationId pending0) _ eq_refl)
    as [c' [H1 [_ H3]]].
  exists c'. split; [exact H1|].
  vm_compute in H1. injection H1 as <-. reflexivity.
Defined.

Lemma push_message_length (k : value) (r : Rec.t) (m : JSMap Conversation) :
  Map_has k m = true ->
  List.length (flat_map (fun e => messages (snd e)) (push_message k r m))
  = S (List.length (flat_map (fun e => messages (snd e)) m)).
Proof.
  unfold Map_has. induction m as [|[k' c] rest IH]; simpl; [discriminate|].
  destruct (same_value_zero k k'); simpl; intros H; rewrite !length_app.
  - simpl. lia.
  - rewrite IH by exact H. lia.
Qed.

Lemma append_record_length (w : WebhookWorld) (k : value) (r : Rec.t)
    (m : JSMap Conversation) :
  List.length (flat_map (fun e => messages (snd e)) (append_record w k r m))
  = S (List.length (flat_map (fun e => messages (snd e)) m)).
Proof.
  unfold append_record. destruct (Map_has k m) eqn:E.
  - now apply push_message_length.
  - rewrite flat_map_app, length_app. simpl. lia.
Qed.

(** A webhook adds exactly one record to the log when its record's
    prompt and response are text or absent, whatever becomes of the
    callback, and none otherwise. *)
Theorem webhook_adds_one_record (cfg : Config) (w : WebhookWorld) (st : State)
    (req : Request) :
  let b := body req in
  let r := record_of w (Map_get (get_prop "channel_id" b) (pendingRequests st)) b in
  List.length (records_of (wh_state (webhook cfg w st req)))
  = (List.length (records_of st)
     + if negb (nullish b)
          && text_or_absent (Rec.prompt r) && text_or_absent (Rec.response r)
       then 1 else 0)%nat.
Proof.
  intros b r. destruct (nullish b) eqn:Hb.
  { unfold webhook. fold b. destruct b; try discriminate Hb; simpl; lia. }
  simpl negb. rewrite andb_true_l.
  destruct (log_record_cases r) as [Hok Hthrow].
  destruct (text_or_absent (Rec.prompt r) && text_or_absent (Rec.response r)).
  - unfold records_of. rewrite (webhook_stores cfg w st req Hb (Hok eq_refl)).
    simpl. rewrite append_record_length. lia.
  - destruct (Hthrow eq_refl) as [e He].
    rewrite (webhook_log_throws cfg w st req e Hb He). simpl. lia.
Qed.

Lemma webhook_ok (cfg : Config) (w : WebhookWorld) (st : State) (req : Request) :
  let b := body req in
  let p := Map_get (get_prop "channel_id" b) (pendingRequests st) in
  status (wh_response (webhook cfg w st req)) = 200 ->
  nullish b = false
  /\ log_record (record_of w p b) = Ok tt
  /\ wh_response (webhook cfg w st req) = webhook_ack (messageId_of w p).
Proof.
  intros b p H. destruct (nullish b) eqn:Hb.
  { revert H. unfold webhook. fold b. destruct b; try discriminate Hb; discriminate. }
  destruct (log_record (record_of w p b)) as [[]|e] eqn:Hlog.
  2:{ rewrite (webhook_log_throws cfg w st req e Hb Hlog) in H. discriminate. }
  split; [reflexivity|]. split; [reflexivity|].
  destruct (webhook_answer cfg w st req Hb Hlog) as [Hans _].
  fold b p in Hans. rewrite Hans in *.
  destruct (forwards req && answered_5xx (downstream w)); [discriminate|reflexivity].
Qed.

(** ** From the webhook to [GET /conversations/:id] *)

(** After a webhook matched to a pending request whose conversation id
    is a string, [GET /conversations/] that id answers 200 with the
    conversation's earlier messages followed by the new record, and
    with the creation time the conversation already had (the time of
    this webhook if it is new). *)
Theorem get_after_webhook (cfg : Config) (w : WebhookWorld) (st : State)
    (req : Request) (q : Pending.t) (c : string) :
  let b := body req in
  let r := record_of w (Some q) b in
  nullish b = false ->
  Map_get (get_prop "channel_id" b) (pendingRequests st) = Some q ->
  Pending.conversationId q = VStr c ->
  text_or_absent (Rec.prompt r) = true ->
  text_or_absent (Rec.response r) = true ->
  get_conversation (wh_state (webhook cfg w st req)) c
  = {| status := 200;
       json :=
         VObj [("messages",
                 VArr (map record_json (messages_at (VStr c) st ++ [r])%list));
               ("createdAt",
                 VStr match Map_get (VStr c) (conversations st) with
                      | Some conv => createdAt conv
                      | None => conversation_time w
                      end)] |}.
Proof.
  intros b r Hb Hq Hc Hp Hr.
  assert (Hlog : log_record (record_of w (Map_get (get_prop "channel_id" b)
                                             (pendingRequests st)) b) = Ok tt).
  { rewrite Hq. now apply log_record_ok. }
  unfold get_conversation, messages_at.
  rewrite (webhook_stores cfg w st req Hb Hlog). fold b. rewrite Hq. simpl.
  rewrite Hc. rewrite (Map_get_append_same w (VStr c) _ _ (same_value_zero_string c)).
  fold r. destruct (Map_get (VStr c) (conversations st)); reflexivity.
Qed.

Lemma get_after_webhook_witness :
  status
    (get_conversation
       (wh_state (webhook cfg0 (world0 (NoReply "")) waiting
                    (unsigned_request (envelope "success" (text_data "Hi")))))
       "9c5b94b1-35ad-49bb-b118-8e8fc24abf80")
  = 200.
Proof.
  rewrite (get_after_webhook cfg0 (world0 (NoReply "")) waiting
             (unsigned_request (envelope "success" (text_data "Hi")))
             pending0 "9c5b94b1-35ad-49bb-b118-8e8fc24abf80");
    reflexivity.
Defined.

(** A record whose conversation id is not a string cannot be fetched:
    when the webhook's conversation id is [undefined] (no pending
    request matched) or any other non-string, no
    [GET /conversations/:id] answers differently after the webhook
    than before. *)
Theorem get_misses_nonstring_conversations (cfg : Config) (w : WebhookWorld)
    (st : State) (req : Request) :
  let p := Map_get (get_prop "channel_id" (body req)) (pendingRequests st) in
  (forall s, stored_conversationId p <> VStr s) ->
  forall id,
    get_conversation (wh_state (webhook cfg w st req)) id = get_conversation st id.
Proof.
  intros p Hp id. destruct (webhook_state_cases cfg w st req) as [->| ->];
    [reflexivity|].
  unfold get_conversation. simpl. fold p.
  rewrite Map_get_append_other; [reflexivity|].
  destruct (same_value_zero (VStr id) (stored_conversationId p)) eqn:E; [|reflexivity].
  apply same_value_zero_eq in E. symmetry in E. now apply Hp in E.
Qed.

Lemma get_misses_nonstring_conversations_witness :
  let out := webhook cfg0 (world0 (NoReply "")) initial
               (unsigned_request (envelope "success" (text_data "Hi"))) in
  List.length (records_of (wh_state out)) = 1%nat
  /\ status (get_conversation (wh_state out) "undefined") = 404.
Proof.
  split; [reflexivity|].
  rewrite (get_misses_nonstring_conversations cfg0 (world0 (NoReply "")) initial
             (unsigned_request (envelope "success" (text_data "Hi")))).
  - reflexivity.
  - intros s. discriminate.
Defined.

(** ** Sequences of webhooks and chats *)

(** A channel is good for one webhook: once a webhook for it got as
    far as storing its record, the next webhook for the same channel
    finds no pending request; its record has the placeholder prompt,
    a fresh id and no conversation id, and if it is acknowledged the
    acknowledgment names that fresh id. *)
Theorem second_webhook_is_unknown (cfg : Config) (w1 w2 : WebhookWorld) (st : State)
    (req1 req2 : Request) :
  let out1 := webhook cfg w1 st req1 in
  let out2 := webhook cfg w2 (wh_state out1) req2 in
  let r2 :=
    record_of w2 (Map_get (get_prop "channel_id" (body req2))
                    (pendingRequests (wh_state out1))) (body req2) in
  status (wh_response out1) = 200 ->
  get_prop "channel_id" (body req2) = get_prop "channel_id" (body req1) ->
  Rec.prompt r2 = VStr "Unknown prompt"
  /\ Rec.id r2 = VStr (fresh_uuid w2)
  /\ Rec.conversation_id r2 = VUndefined
  /\ (status (wh_response out2) = 200 ->
      get_prop "record_id" (json (wh_response out2)) = VStr (fresh_uuid w2)).
Proof.
  intros out1 out2 r2 H1 Hc. subst out1 out2 r2.
  destruct (webhook_ok cfg w1 st req1 H1) as [Hb [Hlog _]].
  pose proof (webhook_consumes_pending cfg w1 st req1 Hb Hlog) as Hnone.
  simpl in Hnone. rewrite Hc, Hnone. repeat split.
  intros H2. destruct (webhook_ok cfg w2 _ req2 H2) as [_ [_ ->]].
  simpl in *. rewrite Hc, Hnone. reflexivity.
Qed.

Lemma second_webhook_is_unknown_witness :
  let req := unsigned_request (envelope "success" (text_data "Hi")) in
  let out1 := webhook cfg0 (world0 (NoReply "")) waiting req in
  let out2 := webhook cfg0 (world0 (NoReply "")) (wh_state out1) req in
  get_prop "record_id" (json (wh_response out1))
  = VStr (Pending.messageId pending0)
  /\ get_prop "record_id" (json (wh_response out2))
     = VStr (fresh_uuid (world0 (NoReply ""))).
Proof.
  split; [reflexivity|].
  apply (second_webhook_is_unknown cfg0 (world0 (NoReply "")) (world0 (NoReply ""))
           waiting
           (unsigned_request (envelope "success" (text_data "Hi")))
           (unsigned_request (envelope "success" (text_data "Hi"))));
    reflexivity.
Defined.

Lemma chat_ok_message (cfg : Config) (w : ChatWorld) (st : State) (req : Request) :
  status (chat_response (chat cfg w st req)) = 200 ->
  truthy (get_prop "message" (body req)) = true.
Proof.
  unfold chat. destruct (nullish (body req)) eqn:Hb.
  - destruct (body req); try discriminate Hb; discriminate.
  - rewrite (destructure_ok _ _ _ Hb).
    destruct (truthy (get_prop "message" (body req))); [reflexivity|discriminate].
Qed.

(** The round trip: a chat message is dispatched and the provider
    names a channel; the webhook for that channel, bringing text, is
    acknowledged with the message id drawn at dispatch, and its record
    carries the prompt, that message id and the conversation id chosen
    at dispatch; the record is in the log and the pending request is
    used up. *)
Theorem chat_then_webhook (cfg : Config) (cw : ChatWorld) (ww : WebhookWorld)
    (st : State) (req1 req2 : Request) (c m : string) :
  let out1 := chat cfg cw st req1 in
  let out2 := webhook cfg ww (chat_state out1) req2 in
  let r :=
    record_of ww (Map_get (VStr c) (pendingRequests (chat_state out1))) (body req2) in
  status (chat_response out1) = 200 ->
  get_prop "channel_id" (json (chat_response out1)) = VStr c ->
  get_prop "message" (body req1) = VStr m ->
  message_uuid cw <> "" ->
  get_prop "channel_id" (body req2) = VStr c ->
  text_or_absent (aiResponse_of (responseDataToProcess_of (body req2))) = true ->
  forwards req2 && answered_5xx (downstream ww) = false ->
  wh_response out2 = webhook_ack (VStr (message_uuid cw))
  /\ Rec.prompt r = VStr m
  /\ Rec.id r = VStr (message_uuid cw)
  /\ Rec.conversation_id r
     = (if truthy (get_prop "conversationId" (body req1))
        then get_prop "conversationId" (body req1)
        else VStr (conversation_uuid cw))
  /\ In r (records_of (wh_state out2))
  /\ Map_get (VStr c) (pendingRequests (wh_state out2)) = None.
Proof.
  intros out1 out2 r H1 Hc Hm Hu Hc2 Htext Hfw. subst out1 out2 r.
  pose proof (chat_ok_message cfg cw st req1 H1) as Htm.
  rewrite (chat_ok_state cfg cw st req1 H1), Hc, Hm in *. simpl pendingRequests.
  unfold put. rewrite (Map_get_set_same (VStr c) _ _ (same_value_zero_string c)).
  set (q := {| Pending.prompt := VStr m;
               Pending.timestamp := stored_now cw;
               Pending.conversationId :=
                 js_or (get_prop "conversationId" (body req1))
                       (VStr (conversation_uuid cw));
               Pending.messageId := message_uuid cw |}).
  set (st1 := {| conversations := conversations st;
                 pendingRequests := Map_set (VStr c) q (pendingRequests st) |}).
  assert (Hb : nullish (body req2) = false).
  { destruct (body req2); try reflexivity; discriminate Hc2. }
  assert (Hq : Map_get (get_prop "channel_id" (body req2)) (pendingRequests st1)
               = Some q).
  { rewrite Hc2. apply Map_get_set_same, same_value_zero_string. }
  assert (Hid : messageId_of ww (Some q) = VStr (message_uuid cw)).
  { unfold messageId_of, js_or. simpl. apply String.eqb_neq in Hu. now rewrite Hu. }
  assert (Hpr : Rec.prompt (record_of ww (Some q) (body req2)) = VStr m).
  { simpl. unfold js_or. simpl. simpl in Htm. now rewrite Htm. }
  assert (Hlog : log_record (record_of ww (Map_get (get_prop "channel_id" (body req2))
                                             (pendingRequests st1)) (body req2))
                 = Ok tt).
  { rewrite Hq. apply log_record_ok; [now rewrite Hpr|exact Htext]. }
  destruct (webhook_answer cfg ww st1 req2 Hb Hlog) as [Hans _].
  rewrite Hfw, Hq, Hid in Hans.
  pose proof (webhook_stores cfg ww st1 req2 Hb Hlog) as Hst. rewrite Hq in Hst.
  split; [exact Hans|]. split; [exact Hpr|]. split; [exact Hid|].
  split; [reflexivity|]. split.
  - unfold records_of. rewrite Hst. simpl. apply append_record_In.
  - rewrite Hst. simpl. rewrite Hc2. apply Map_get_delete_same.
Qed.

Lemma chat_then_webhook_witness :
  let out1 :=
    chat cfg0 (chat_world0 (Replied 200 (VObj [("channel_id", VStr "test-channel")])))
      initial {| headers := []; body := VObj [("message", VStr "Hello test")] |} in
  let out2 := webhook cfg0 (world0 (NoReply "")) (chat_state out1)
                (unsigned_request (envelope "success" (text_data "Hi"))) in
  wh_response out2 = webhook_ack (VStr (message_uuid (chat_world0 (NoReply "")))).
Proof.
  apply (chat_then_webhook cfg0
           (chat_world0 (Replied 200 (VObj [("channel_id", VStr "test-channel")])))
           (world0 (NoReply "")) initial
           {| headers := []; body := VObj [("message", VStr "Hello test")] |}
           (unsigned_request (envelope "success" (text_data "Hi")))
           "test-channel" "Hello test");
    try reflexivity.
  discriminate.
Defined.

(** ** The callback *)

Lemma webhook_callback_is (cfg : Config) (w : WebhookWorld) (st : State)
    (req : Request) (u : string) :
  let b := body req in
  let p := Map_get (get_prop "channel_id" b) (pendingRequests st) in
  nullish b = false ->
  log_record (record_of w p b) = Ok tt ->
  callbackUrl_of req = VStr u ->
  prefix "http" u = true ->
  wh_callback (webhook cfg w st req)
  = Some (callback_post cfg u
            (callbackPayload_of w b
               (enrichedData_of (callbackData_of b) (messageId_of w p)
                  (stored_conversationId p))
               (messageId_of w p) (stored_conversationId p))).
Proof.
  intros b p Hb Hlog Hu Hp. unfold webhook. fold b.
  rewrite (destructure_ok _ _ _ Hb). fold p. rewrite Hlog, Hu.
  rewrite (prefix_http_truthy u Hp), Hp. simpl negb. cbv iota.
  rewrite send_callback_result.
  destruct (answered_5xx (downstream w)); reflexivity.
Qed.

(** One id everywhere: when a callback is posted, its [task_id], the
    [id] inside its [data] and the stored record's [id] are the same
    value, the conversation and channel ids in its [metadata] are the
    record's, its [usage] is never missing (an empty object at
    least), and it is sent under the configured key. *)
Theorem callback_carries_record_ids (cfg : Config) (w : WebhookWorld) (st : State)
    (req : Request) :
  let b := body req in
  let r := record_of w (Map_get (get_prop "channel_id" b) (pendingRequests st)) b in
  nullish b = false ->
  log_record r = Ok tt ->
  forwards req = true ->
  exists post,
    wh_callback (webhook cfg w st req) = Some post
    /\ get_prop "task_id" (data post) = Rec.id r
    /\ get_prop "id" (get_prop "data" (data post)) = Rec.id r
    /\ get_prop "conversation_id" (get_prop "data" (data post)) = Rec.conversation_id r
    /\ get_prop "conversation_id" (get_prop "metadata" (data post))
       = Rec.conversation_id r
    /\ get_prop "channel_id" (get_prop "metadata" (data post)) = Rec.channel_id r
    /\ truthy (get_prop "usage" (get_prop "metadata" (data post))) = true
    /\ In ("Authorization", bearer cfg) (post_headers post).
Proof.
  intros b r Hb Hlog Hf. unfold forwards in Hf.
  destruct (callbackUrl_of req) as [| |x|n|u|l|l] eqn:Hu; try discriminate.
  rewrite (webhook_callback_is cfg w st req u Hb Hlog Hu Hf).
  eexists. split; [reflexivity|]. fold b.
  set (p := Map_get (get_prop "channel_id" b) (pendingRequests st)).
  destruct (enrichedData_ids (callbackData_of b) (messageId_of w p)
              (stored_conversationId p)) as [l [Hl [Hid Hcid]]].
  simpl. rewrite Hl. simpl. rewrite Hid, Hcid.
  repeat split.
  - unfold js_or.
    destruct (truthy (opt_get "usage" (get_prop "meta" b))) eqn:E1; [exact E1|].
    destruct (truthy (opt_get "usage" (get_prop "data" b))) eqn:E2; [exact E2|].
    destruct (truthy (opt_get "usage" (opt_get "meta" (get_prop "ai_response" b))))
      eqn:E3; [exact E3|reflexivity].
  - right. now left.
Qed.

Lemma callback_carries_record_ids_witness :
  exists post,
    wh_callback
      (webhook cfg0 (world0 (Replied 200 VNull)) waiting
         (unsigned_request (envelope_with_callback (text_data "Hi"))))
    = Some post
    /\ get_prop "task_id" (data post) = VStr (Pending.messageId pending0).
Proof.
  destruct (callback_carries_record_ids cfg0 (world0 (Replied 200 VNull)) waiting
              (unsigned_request (envelope_with_callback (text_data "Hi")))
              eq_refl eq_refl eq_refl) as [post [H1 [H2 _]]].
  exists post. split; [exact H1|exact H2].
Defined.

(** The address in the body wins over the header: with a truthy
    [callback_url] in the body the headers make no difference to the
    outcome; and when that field is truthy but not a string, nothing
    is forwarded, whatever address the header holds. *)
Theorem body_address_takes_precedence (cfg : Config) (w : WebhookWorld) (st : State)
    (b : value) (h h' : list (string * string)) :
  truthy (get_prop "callback_url" b) = true ->
  webhook cfg w st {| headers := h; body := b |}
  = webhook cfg w st {| headers := h'; body := b |}
  /\ ((forall u, get_prop "callback_url" b <> VStr u) ->
      wh_callback (webhook cfg w st {| headers := h; body := b |}) = None).
Proof.
  intros Ht.
  assert (Hu : forall hh, callbackUrl_of {| headers := hh; body := b |}
                          = get_prop "callback_url" b).
  { intros hh. unfold callbackUrl_of, js_or. simpl. now rewrite Ht. }
  split.
  - unfold webhook. rewrite !Hu. reflexivity.
  - intros Hns. unfold webhook. rewrite Hu. simpl body.
    destruct (destructure _ _ b); [|reflexivity].
    destruct (log_record _); [|reflexivity].
    rewrite Ht. simpl.
    destruct (get_prop "callback_url" b); try reflexivity.
    now destruct (Hns s).
Qed.

Lemma body_address_takes_precedence_witness :
  wh_callback
    (webhook cfg0 (world0 (NoReply "")) initial
       {| headers := [("x-modelriver-callback-url",
                       "https://api.modelriver.com/v1/callback/test-channel")];
          body := VObj [("channel_id", VStr "test-channel");
                        ("data", text_data "Hi");
                        ("callback_url", VNum 1)] |})
  = None.
Proof.
  apply (proj2 (body_address_takes_precedence cfg0 (world0 (NoReply "")) initial
                  (VObj [("channel_id", VStr "test-channel");
                         ("data", text_data "Hi");
                         ("callback_url", VNum 1)])
                  [("x-modelriver-callback-url",
                    "https://api.modelriver.com/v1/callback/test-channel")]
                  [] eq_refl)).
  intros u. discriminate.
Defined.

(** An address that is not a string starting with "http" is skipped,
    not failed: nothing is posted, and the webhook is answered as it
    would be without any address: 500 with nothing stored when the
    body is [null] or missing or the record's prompt or response is
    not text, and otherwise 200 with the record id and the record
    stored. *)
Theorem invalid_address_is_skipped (cfg : Config) (w : WebhookWorld) (st : State)
    (req : Request) :
  let b := body req in
  let p := Map_get (get_prop "channel_id" b) (pendingRequests st) in
  let r := record_of w p b in
  let out := webhook cfg w st req in
  (forall u, callbackUrl_of req = VStr u -> prefix "http" u = false) ->
  wh_callback out = None
  /\ (if nullish b || negb (text_or_absent (Rec.prompt r) && text_or_absent (Rec.response r))
      then status (wh_response out) = 500 /\ wh_state out = st
      else wh_response out = webhook_ack (messageId_of w p)
           /\ In r (records_of (wh_state out))).
Proof.
  intros b p r out Hbad. subst out.
  destruct (nullish b) eqn:Hb.
  { unfold webhook. fold b. destruct b; try discriminate Hb; simpl; auto. }
  cbn [orb]. destruct (log_record_cases r) as [Hok Hthrow].
  destruct (text_or_absent (Rec.prompt r) && text_or_absent (Rec.response r)).
  - cbn [negb].
    assert (Hf : forwards req = false).
    { unfold forwards. destruct (callbackUrl_of req); try reflexivity. now apply Hbad. }
    pose proof (Hok eq_refl) as Hlog.
    destruct (webhook_answer cfg w st req Hb Hlog) as [Hans [Hnone _]].
    fold b p in Hans. rewrite Hf in Hans. simpl in Hans.
    split; [exact (Hnone Hf)|]. split; [exact Hans|].
    unfold records_of. rewrite (webhook_stores cfg w st req Hb Hlog). simpl.
    apply append_record_In.
  - cbn [negb]. destruct (Hthrow eq_refl) as [e He].
    rewrite (webhook_log_throws cfg w st req e Hb He). simpl. auto.
Qed.

Lemma invalid_address_is_skipped_witness :
  let bad := VStr "ftp://example.org/callback/test-channel" in
  let req1 :=
    {| headers := [];
       body := VObj [("channel_id", VStr "test-channel"); ("data", text_data "Hi");
                     ("callback_url", bad)] |} in
  let req2 :=
    {| headers := [];
       body := VObj [("channel_id", VStr "test-channel"); ("data", structured_data);
                     ("callback_url", bad)] |} in
  (wh_callback (webhook cfg0 (world0 (NoReply "")) waiting req1) = None
   /\ status (wh_response (webhook cfg0 (world0 (NoReply "")) waiting req1)) = 200)
  /\ (wh_callback (webhook cfg0 (world0 (NoReply "")) waiting req2) = None
      /\ status (wh_response (webhook cfg0 (world0 (NoReply "")) waiting req2)) = 500).
Proof.
  intros bad req1 req2. split.
  - destruct (invalid_address_is_skipped cfg0 (world0 (NoReply "")) waiting req1)
      as [H1 [H2 _]].
    + intros u [= <-]. reflexivity.
    + split; [exact H1|]. rewrite H2. reflexivity.
  - destruct (invalid_address_is_skipped cfg0 (world0 (NoReply "")) waiting req2)
      as [H1 [H2 _]].
    + intros u [= <-]. reflexivity.
    + split; [exact H1|exact H2].
Defined.

(** ** Which payload goes where *)

Lemma opt_get_truthy (k : string) (v : value) :
  truthy (opt_get k v) = true -> opt_get k v = get_prop k v.
Proof. unfold opt_get. destruct (nullish v); [discriminate|reflexivity]. Qed.

(** The callback data is never [null], [undefined] or otherwise
    falsy: an envelope with no payload at all forwards the empty
    object, so the forwarded [data] is then exactly the two ids, and
    the branch that would send "Response processed" is never taken. *)
Theorem callback_data_is_never_missing (b messageId conversationId : value) :
  truthy (callbackData_of b) = true
  /\ (truthy (get_prop "data" b) = false ->
      truthy (opt_get "data" (get_prop "ai_response" b)) = false ->
      enrichedData_of (callbackData_of b) messageId conversationId
      = VObj [("id", messageId); ("conversation_id", conversationId)]).
Proof.
  split.
  - unfold callbackData_of, js_and, js_or, responseData_of, js_or.
    destruct (same_value_zero (get_prop "type" b) (VStr "task.ai_generated")); simpl.
    + destruct (truthy (opt_get "data" (get_prop "ai_response" b))) eqn:E.
      * now rewrite <- (opt_get_truthy _ _ E).
      * destruct (truthy (get_prop "data" b)) eqn:E2; [exact E2|reflexivity].
    + destruct (truthy (get_prop "data" b)) eqn:E2; [exact E2|].
      destruct (truthy (opt_get "data" (get_prop "ai_response" b))) eqn:E;
        rewrite ?E, ?E2; reflexivity.
  - intros Hd Hai.
    unfold callbackData_of, js_and, js_or, responseData_of, js_or.
    rewrite Hd, Hai.
    destruct (same_value_zero (get_prop "type" b) (VStr "task.ai_generated")); simpl;
      rewrite ?Hai, ?Hd; reflexivity.
Qed.

Lemma callback_data_is_never_missing_witness :
  enrichedData_of (callbackData_of (VObj [("channel_id", VStr "test-channel")]))
    (VStr "m") (VStr "c")
  = VObj [("id", VStr "m"); ("conversation_id", VStr "c")].
Proof.
  apply (proj2 (callback_data_is_never_missing
                  (VObj [("channel_id", VStr "test-channel")]) (VStr "m") (VStr "c")));
    reflexivity.
Defined.

(** The record and the callback do not always use the same payload.
    With a truthy [ai_response.data]: an envelope tagged
    [task.ai_generated] uses it for both; an envelope with any other
    tag builds the record from it, and the callback from [data] when
    [data] is truthy, from [ai_response.data] too when it is not.
    Without a truthy [ai_response.data]: both use [data] when [data]
    is truthy; when it is not, the record still takes [data],
    whatever falsy value that is, and the callback takes the empty
    object. *)
Theorem payload_selection (b : value) :
  let ai := opt_get "data" (get_prop "ai_response" b) in
  let d := get_prop "data" b in
  (get_prop "type" b = VStr "task.ai_generated" -> truthy ai = true ->
   responseDataToProcess_of b = ai /\ callbackData_of b = ai)
  /\ (same_value_zero (get_prop "type" b) (VStr "task.ai_generated") = false ->
      truthy ai = true -> truthy d = true ->
      responseDataToProcess_of b = ai /\ callbackData_of b = d)
  /\ (truthy ai = false -> truthy d = true ->
      responseDataToProcess_of b = d /\ callbackData_of b = d)
  /\ (same_value_zero (get_prop "type" b) (VStr "task.ai_generated") = false ->
      truthy ai = true -> truthy d = false ->
      responseDataToProcess_of b = ai /\ callbackData_of b = ai)
  /\ (truthy ai = false -> truthy d = false ->
      responseDataToProcess_of b = d /\ callbackData_of b = VObj []).
Proof.
  intros ai d. subst ai d.
  unfold responseDataToProcess_of, responseData_of, callbackData_of, js_and, js_or.
  split; [|split; [|split; [|split]]].
  - intros Ht Ha. rewrite Ht. simpl same_value_zero.
    repeat first [rewrite Ha | progress cbn [truthy] | progress cbv iota].
    split; [reflexivity|]. symmetry. now apply opt_get_truthy.
  - intros Ht Ha Hd. rewrite Ht.
    repeat first [rewrite Ha | rewrite Hd | progress cbn [truthy] | progress cbv iota].
    now split.
  - intros Ha Hd.
    destruct (same_value_zero _ _);
      repeat first [rewrite Ha | rewrite Hd | progress cbn [truthy]
                   | progress cbv iota];
      now split.
  - intros Ht Ha Hd. rewrite Ht. unfold responseData_of, js_or.
    repeat first [rewrite Ha | rewrite Hd | progress cbn [truthy] | progress cbv iota].
    now split.
  - intros Ha Hd. unfold responseData_of, js_or.
    destruct (same_value_zero _ _);
      repeat first [rewrite Ha | rewrite Hd | progress cbn [truthy]
                   | progress cbv iota];
      now split.
Qed.

Lemma payload_selection_witness :
  (let b := VObj [("type", VStr "task.completed");
                  ("ai_response", VObj [("data", text_data "from ai_response")]);
                  ("data", text_data "from data")] in
   aiResponse_of (responseDataToProcess_of b) = VStr "from ai_response"
   /\ callbackData_of b = text_data "from data")
  /\ (let b := VObj [("channel_id", VStr "test-channel"); ("data", VNum 0)] in
      responseDataToProcess_of b = VNum 0 /\ callbackData_of b = VObj []).
Proof.
  split.
  - intros b.
    destruct (proj1 (proj2 (payload_selection b)) eq_refl eq_refl eq_refl) as [H1 H2].
    split; [rewrite H1; reflexivity|exact H2].
  - intros b.
    exact (proj2 (proj2 (proj2 (proj2 (payload_selection b)))) eq_refl eq_refl).
Defined.

(** ** The response value *)

Lemma string_of_Z_nonempty (n : Z) : string_of_Z n <> "".
Proof.
  unfold string_of_Z, NilZero.string_of_int, NilZero.string_of_uint.
  destruct (Z.to_int n) as [d|d]; [|discriminate].
  destruct d; discriminate.
Qed.

Lemma JSON_stringify_truthy (v : value) :
  v <> VUndefined -> truthy (JSON_stringify v) = true.
Proof.
  intros Hv. unfold JSON_stringify.
  destruct v as [| |b|n|s|l|l]; try reflexivity.
  - now destruct Hv.
  - now destruct b.
  - simpl. pose proof (string_of_Z_nonempty n) as H.
    apply String.eqb_neq in H. now rewrite H.
Qed.

(** Only a webhook without any payload leaves the response empty: the
    response value is [undefined] when the selected payload is
    [undefined], and truthy (a non-empty text, an object, an array,
    ...) for every other payload, [null], [0] and the empty string
    included, which come out as their JSON text. *)
Theorem response_is_never_empty (x : value) :
  (x = VUndefined -> aiResponse_of x = VUndefined)
  /\ (x <> VUndefined -> truthy (aiResponse_of x) = true).
Proof.
  split.
  - intros ->. reflexivity.
  - intros Hx. unfold aiResponse_of.
    destruct (truthy x && (typeof x =? "object")%string
              && negb (truthy (get_prop "choices" x))
              && negb (truthy (get_prop "response" x))) eqn:E.
    + apply andb_true_iff in E. destruct E as [E _].
      apply andb_true_iff in E. destruct E as [E _].
      apply andb_true_iff in E. now destruct E as [E _].
    + unfold js_or.
      destruct (truthy (content_path x)) eqn:E1; [exact E1|].
      destruct (truthy (content_path (opt_get "response" x))) eqn:E2; [exact E2|].
      now apply JSON_stringify_truthy.
Qed.

Lemma response_is_never_empty_witness :
  aiResponse_of VUndefined = VUndefined
  /\ truthy (aiResponse_of VNull) = true
  /\ truthy (aiResponse_of (VStr "")) = true.
Proof.
  split; [|split].
  - now apply (proj1 (response_is_never_empty VUndefined)).
  - apply (proj2 (response_is_never_empty VNull)). discriminate.
  - apply (proj2 (response_is_never_empty (VStr ""))). discriminate.
Defined.

(** A chat-completion payload yields its text: whenever the first
    element of [choices] is an object whose [message.content] is a
    non-empty string, that string is the response value, whatever
    else the payload carries. *)
Theorem text_payload_response (l m c : list (string * value)) (rest : list value)
    (t : string) :
  assoc "choices" l = Some (VArr (VObj m :: rest)) ->
  assoc "message" m = Some (VObj c) ->
  assoc "content" c = Some (VStr t) ->
  t <> "" ->
  aiResponse_of (VObj l) = VStr t.
Proof.
  intros Hc Hm Ht Hne.
  assert (Hch : get_prop "choices" (VObj l) = VArr (VObj m :: rest)).
  { unfold get_prop. now rewrite Hc. }
  assert (Hp : content_path (VObj l) = VStr t).
  { unfold content_path.
    assert (opt_get "choices" (VObj l) = VArr (VObj m :: rest)) as -> by exact Hch.
    cbn [opt_index0].
    assert (opt_get "message" (VObj m) = VObj c) as ->
      by (unfold opt_get, get_prop; cbn [nullish]; now rewrite Hm).
    unfold opt_get, get_prop. cbn [nullish]. now rewrite Ht. }
  unfold aiResponse_of, js_or. rewrite Hch, Hp. cbn [truthy negb andb].
  rewrite andb_false_r. cbn [andb].
  apply String.eqb_neq in Hne. now rewrite Hne.
Qed.

Lemma text_payload_response_witness :
  aiResponse_of
    (VObj [("id", VStr "chatcmpl-1"); ("response", VStr "ignored");
           ("choices", VArr [VObj [("index", VNum 0);
                                   ("message", VObj [("role", VStr "assistant");
                                                     ("content", VStr "Hi")])]])])
  = VStr "Hi".
Proof.
  eapply text_payload_response; try reflexivity. discriminate.
Defined.

(** ** [GET /health] and the configuration *)

Lemma chat_ok_key (cfg : Config) (w : ChatWorld) (st : State) (req : Request) :
  status (chat_response (chat cfg w st req)) = 200 ->
  truthy (api_key_value cfg) = true.
Proof.
  unfold chat. destruct (nullish (body req)) eqn:Hb.
  - destruct (body req); try discriminate Hb; discriminate.
  - rewrite (destructure_ok _ _ _ Hb).
    destruct (truthy (get_prop "message" (body req))); [|discriminate].
    destruct (truthy (api_key_value cfg)); [reflexivity|discriminate].
Qed.

(** The health check tells whether [/chat] can work, and nothing about
    the key itself: while it reports the key as not configured, no
    [/chat] request is dispatched or answered 200; while it reports it
    as configured, every [/chat] request with a message is dispatched;
    and two configurations that differ only in the text of a
    configured key give the same health answer. *)
Theorem health_reflects_the_key (cfg : Config) (now : string) :
  let flag :=
    get_prop "api_key_configured" (get_prop "config" (json (health cfg now))) in
  (flag = VBool false ->
   forall w st req,
     chat_dispatch (chat cfg w st req) = None
     /\ status (chat_response (chat cfg w st req)) <> 200)
  /\ (flag = VBool true ->
      forall w st req,
        nullish (body req) = false ->
        truthy (get_prop "message" (body req)) = true ->
        exists post, chat_dispatch (chat cfg w st req) = Some post)
  /\ (forall k k',
        k <> "" -> k' <> "" ->
        health {| MODELRIVER_API_URL := MODELRIVER_API_URL cfg;
                  MODELRIVER_API_KEY := Some k;
                  BACKEND_PUBLIC_URL := BACKEND_PUBLIC_URL cfg |} now
        = health {| MODELRIVER_API_URL := MODELRIVER_API_URL cfg;
                    MODELRIVER_API_KEY := Some k';
                    BACKEND_PUBLIC_URL := BACKEND_PUBLIC_URL cfg |} now).
Proof.
  simpl. split; [|split].
  - intros [= Hk] w st req. split.
    + destruct (chat_dispatch (chat cfg w st req)) as [post|] eqn:E; [|reflexivity].
      apply chat_dispatched in E. destruct E as [_ [_ E]]. congruence.
    + intros H. apply chat_ok_key in H. congruence.
  - intros [= Hk] w st req Hb Hm.
    destruct (chat_reaches_dispatch cfg w st req Hb Hm Hk) as [post [_ [_ ->]]].
    destruct (axios_post post (provider w)) as [[s d]|e]; [|now eexists].
    destruct (destructure _ _ d); now eexists.
  - intros k k' Hk Hk'. unfold health, api_key_value. simpl.
    apply String.eqb_neq in Hk, Hk'. now rewrite Hk, Hk'.
Qed.

Lemma health_reflects_the_key_witness :
  (exists post,
      chat_dispatch
        (chat cfg0 (chat_world0 (NoReply "")) initial
           {| headers := []; body := VObj [("message", VStr "Hello test")] |})
      = Some post)
  /\ chat_dispatch
       (chat (load_config []) (chat_world0 (NoReply "")) initial
          {| headers := []; body := VObj [("message", VStr "Hello test")] |})
     = None.
Proof.
  split.
  - apply (proj1 (proj2 (health_reflects_the_key cfg0 "t")) eq_refl); reflexivity.
  - apply (proj1 (health_reflects_the_key (load_config []) "t") eq_refl).
Defined.

(** An API key that is unset, or set to the empty string, stops every
    [/chat] request before the provider is called: nothing is
    dispatched, the stores are untouched, and a request with a message
    is answered 500 with the configuration error. *)
Theorem unset_key_blocks_chat (e : Env) (w : ChatWorld) (st : State) (req : Request) :
  getenv "MODELRIVER_API_KEY" e = None \/ getenv "MODELRIVER_API_KEY" e = Some "" ->
  chat_dispatch (chat (load_config e) w st req) = None
  /\ chat_state (chat (load_config e) w st req) = st
  /\ (nullish (body req) = false ->
      truthy (get_prop "message" (body req)) = true ->
      chat_response (chat (load_config e) w st req)
      = {| status := 500;
           json := VObj [("error",
             VStr "MODELRIVER_API_KEY not configured. Set it in environment variables.")] |}).
Proof.
  intros He.
  assert (Hk : truthy (api_key_value (load_config e)) = false).
  { unfold api_key_value, load_config. simpl. destruct He as [-> | ->]; reflexivity. }
  assert (Hd : chat_dispatch (chat (load_config e) w st req) = None).
  { destruct (chat_dispatch (chat (load_config e) w st req)) as [post|] eqn:E;
      [|reflexivity].
    apply chat_dispatched in E. destruct E as [_ [_ E]]. congruence. }
  split; [exact Hd|]. split.
  - destruct (chat_state_cases (load_config e) w st req) as [E|[c [E _]]]; [exact E|].
    apply chat_ok_key in E. congruence.
  - intros Hb Hm. unfold chat. now rewrite (destructure_ok _ _ _ Hb), Hm, Hk.
Qed.

Lemma unset_key_blocks_chat_witness :
  status
    (chat_response
       (chat (load_config [("PORT", "8080"); ("MODELRIVER_API_KEY", "")])
          (chat_world0 (NoReply "")) initial
          {| headers := []; body := VObj [("message", VStr "Hello test")] |}))
  = 500.
Proof.
  destruct (unset_key_blocks_chat [("PORT", "8080"); ("MODELRIVER_API_KEY", "")]
              (chat_world0 (NoReply "")) initial
              {| headers := []; body := VObj [("message", VStr "Hello test")] |})
    as [_ [_ H]].
  - right. reflexivity.
  - rewrite H; reflexivity.
Defined.

(** Where a dispatch goes by default: with [MODELRIVER_API_URL] unset
    it is posted to [https://api.modelriver.com/v1/ai/async]; with
    [BACKEND_PUBLIC_URL] unset the provider is told to call back
    [http://localhost:<PORT>/webhook/modelriver], and port 4000 when
    [PORT] is unset too. *)
Theorem default_routes (e : Env) (w : ChatWorld) (st : State) (req : Request)
    (post : HttpPost) :
  chat_dispatch (chat (load_config e) w st req) = Some post ->
  (getenv "MODELRIVER_API_URL" e = None ->
   url post = "https://api.modelriver.com/v1/ai/async")
  /\ (getenv "BACKEND_PUBLIC_URL" e = None ->
      get_prop "webhook_url" (data post)
      = VStr ("http://localhost:" ++ PORT e ++ "/webhook/modelriver"))
  /\ (getenv "BACKEND_PUBLIC_URL" e = None -> getenv "PORT" e = None ->
      get_prop "webhook_url" (data post)
      = VStr "http://localhost:4000/webhook/modelriver").
Proof.
  intros H. apply chat_dispatch_is in H. subst post. simpl.
  unfold env_or, PORT, env_or.
  split; [|split].
  - intros ->. reflexivity.
  - intros ->. reflexivity.
  - intros -> ->. reflexivity.
Qed.

Lemma default_routes_witness :
  exists post,
    chat_dispatch
      (chat (load_config [("MODELRIVER_API_KEY", "mr_key"); ("PORT", "8080")])
         (chat_world0 (NoReply "")) initial
         {| headers := []; body := VObj [("message", VStr "Hello test")] |})
    = Some post
    /\ url post = "https://api.modelriver.com/v1/ai/async"
    /\ get_prop "webhook_url" (data post)
       = VStr "http://localhost:8080/webhook/modelriver".
Proof.
  eexists. split; [reflexivity|].
  pose proof (default_routes [("MODELRIVER_API_KEY", "mr_key"); ("PORT", "8080")]
                (chat_world0 (NoReply "")) initial
                {| headers := []; body := VObj [("message", VStr "Hello test")] |}
                _ eq_refl) as H.
  split; [exact (proj1 H eq_refl)|exact (proj1 (proj2 H) eq_refl)].
Defined.

(** ** Invariants over sequences of requests *)

Lemma same_value_zero_sym (a b : value) :
  same_value_zero a b = same_value_zero b a.
Proof.
  destruct a, b; simpl; try reflexivity.
  - now destruct b, b0.
  - apply Z.eqb_sym.
  - apply String.eqb_sym.
Qed.

Lemma Map_get_In_key {V : Type} (k : value) (v : V) (m : JSMap V) :
  Map_get k m = Some v -> In (k, v) m.
Proof.
  induction m as [|[k' v'] r IH]; simpl; [discriminate|].
  destruct (same_value_zero k k') eqn:E.
  - intros [= ->]. apply same_value_zero_eq in E. subst. now left.
  - intros H. right. now apply IH.
Qed.

Lemma keys_unique_get {V : Type} (k : value) (v : V) (m : JSMap V) :
  keys_unique m -> In (k, v) m -> same_value_zero k k = true ->
  Map_get k m = Some v.
Proof.
  intros Hu Hin Hk. induction m as [|[k' v'] r IH]; simpl in *; [contradiction|].
  destruct Hu as [Hnone Hu]. destruct Hin as [[= -> ->]|Hin].
  - now rewrite Hk.
  - destruct (same_value_zero k k') eqn:E.
    + apply same_value_zero_eq in E. subst k'.
      rewrite (IH Hu Hin) in Hnone. discriminate.
    + now apply IH.
Qed.

Lemma Map_get_push_none (k k' : value) (r : Rec.t) (m : JSMap Conversation) :
  Map_get k' m = None -> Map_get k' (push_message k r m) = None.
Proof.
  induction m as [|[k'' c] rest IH]; simpl; [reflexivity|].
  destruct (same_value_zero k' k'') eqn:E; [discriminate|].
  intros H. destruct (same_value_zero k k''); simpl; rewrite E; auto.
Qed.

Lemma push_message_unique (k : value) (r : Rec.t) (m : JSMap Conversation) :
  keys_unique m -> keys_unique (push_message k r m).
Proof.
  induction m as [|[k'' c] rest IH]; simpl; [auto|].
  intros [Hn Hu]. destruct (same_value_zero k k''); simpl.
  - now split.
  - split; [now apply Map_get_push_none|now apply IH].
Qed.

Lemma snoc_unique {V : Type} (k : value) (v : V) (m : JSMap V) :
  keys_unique m -> Map_get k m = None -> keys_unique (m ++ [(k, v)])%list.
Proof.
  induction m as [|[k'' c] rest IH]; simpl.
  - intros _ _. now split.
  - intros [Hn Hu]. destruct (same_value_zero k k'') eqn:E; [discriminate|].
    intros Hk. split; [|now apply IH].
    rewrite Map_get_app, Hn. simpl.
    rewrite same_value_zero_sym, E. reflexivity.
Qed.

Lemma append_record_unique (w : WebhookWorld) (k : value) (r : Rec.t)
    (m : JSMap Conversation) :
  keys_unique m -> keys_unique (append_record w k r m).
Proof.
  intros Hu. unfold append_record, Map_has.
  destruct (Map_get k m) eqn:E.
  - now apply push_message_unique.
  - now apply snoc_unique.
Qed.

Lemma push_message_In_inv (k k' : value) (r : Rec.t) (c' : Conversation)
    (m : JSMap Conversation) :
  In (k', c') (push_message k r m) ->
  In (k', c') m
  \/ (k' = k /\ exists c, In (k, c) m /\ messages c' = (messages c ++ [r])%list).
Proof.
  induction m as [|[k'' c] rest IH]; simpl; [contradiction|].
  destruct (same_value_zero k k'') eqn:E; simpl.
  - apply same_value_zero_eq in E. subst k''.
    intros [[= <- <-]|H]; [|left; now right].
    right. split; [reflexivity|]. exists c. split; [now left|reflexivity].
  - intros [H|H]; [left; now left|].
    destruct (IH H) as [Hin|[-> [c0 [Hin Hm]]]]; [left; now right|].
    right. split; [reflexivity|]. exists c0. split; [now right|exact Hm].
Qed.

Lemma append_record_filed (w : WebhookWorld) (k : value) (r : Rec.t)
    (m : JSMap Conversation) :
  Rec.conversation_id r = k ->
  records_filed m -> records_filed (append_record w k r m).
Proof.
  intros Hr Hf k' c' r' Hin Hr'. unfold append_record in Hin.
  destruct (Map_has k m).
  - apply push_message_In_inv in Hin.
    destruct Hin as [Hin|[-> [c [Hin Hm]]]]; [now apply (Hf k' c' r')|].
    rewrite Hm in Hr'. apply in_app_or in Hr'.
    destruct Hr' as [Hr'|[<-|[]]]; [now apply (Hf k c r')|exact Hr].
  - apply in_app_or in Hin. destruct Hin as [Hin|[[= <- <-]|[]]].
    + now apply (Hf k' c' r').
    + simpl in Hr'. destruct Hr' as [<-|[]]. exact Hr.
Qed.

Lemma push_message_records (k : value) (r x : Rec.t) (m : JSMap Conversation) :
  In x (flat_map (fun e => messages (snd e)) (push_message k r m)) <->
  In x (flat_map (fun e => messages (snd e)) m)
  \/ (Map_has k m = true /\ x = r).
Proof.
  unfold Map_has. induction m as [|[k' c] rest IH]; simpl.
  - split; [contradiction|]. intros [[]|[H _]]. discriminate.
  - destruct (same_value_zero k k'); simpl; rewrite !in_app_iff.
    + simpl. intuition (subst; auto).
    + rewrite IH. tauto.
Qed.

Lemma append_record_records (w : WebhookWorld) (k : value) (r x : Rec.t)
    (m : JSMap Conversation) :
  In x (flat_map (fun e => messages (snd e)) (append_record w k r m)) <->
  x = r \/ In x (flat_map (fun e => messages (snd e)) m).
Proof.
  unfold append_record. destruct (Map_has k m) eqn:E.
  - rewrite push_message_records, E. intuition.
  - rewrite flat_map_app, in_app_iff. simpl. intuition.
Qed.

Lemma run_invariant (cfg : Config) (P : State -> Prop) :
  (forall st c, uuid_drawn c -> P st -> P (fst (serve cfg st c))) ->
  forall calls st, Forall uuid_drawn calls -> P st -> P (run cfg st calls).
Proof.
  intros Hstep calls. unfold run.
  induction calls as [|c rest IH]; simpl; intros st Hall Hst; [exact Hst|].
  inversion Hall as [|? ? Hc Hrest]; subst.
  apply IH; [exact Hrest|]. now apply Hstep.
Qed.

(** Identifiers never go missing: over any sequence of requests from
    the empty stores, with every uuid drawn being non-empty, every
    pending request holds a non-empty message id and every record in
    the log has a non-empty string as its id. *)
Theorem run_keeps_ids (cfg : Config) (calls : list Call) :
  Forall uuid_drawn calls ->
  pending_ids_set (run cfg initial calls)
  /\ record_ids_set (run cfg initial calls).
Proof.
  intros Hall.
  apply (run_invariant cfg (fun st => pending_ids_set st /\ record_ids_set st));
    [|exact Hall|].
  - intros st c Hc [Hp Hr]. destruct c as [w req|w req|id|now]; simpl;
      try (split; assumption).
    + split; [apply chat_keeps_ids; [exact (proj1 Hc)|exact Hp]|].
      unfold record_ids_set, records_of.
      destruct (chat_state_cases cfg w st req) as [->|[c [_ ->]]]; exact Hr.
    + split; [now apply webhook_keeps_ids|].
      unfold record_ids_set, records_of.
      destruct (webhook_state_cases cfg w st req) as [->| ->]; [exact Hr|].
      simpl. intros r Hin. apply append_record_records in Hin.
      destruct Hin as [->|Hin]; [|now apply Hr].
      simpl. unfold messageId_of, js_or.
      destruct (Map_get (get_prop "channel_id" (body req)) (pendingRequests st))
        as [q|] eqn:Eq; simpl.
      * destruct (Map_get_In _ _ _ Eq) as [k Hk]. pose proof (Hp k q Hk) as Hne.
        pose proof Hne as Hne'. apply String.eqb_neq in Hne'. rewrite Hne'. simpl.
        now eexists.
      * simpl in Hc. now eexists.
  - split; [exact initial_ids_set|]. intros r [].
Qed.

Lemma run_keeps_ids_witness :
  record_ids_set
    (run cfg0 initial
       [PostChat (chat_world0 (Replied 200 (VObj [("channel_id", VStr "test-channel")])))
          {| headers := []; body := VObj [("message", VStr "Hello test")] |};
        PostWebhook (world0 (NoReply ""))
          (unsigned_request (envelope "success" (text_data "Hi")))]).
Proof.
  apply run_keeps_ids.
  repeat constructor; discriminate.
Defined.

(** Nothing is ever removed from the conversation log: a record that
    is in it stays in it through every later request. *)
Theorem run_keeps_records (cfg : Config) (calls : list Call) (st : State) (r : Rec.t) :
  In r (records_of st) -> In r (records_of (run cfg st calls)).
Proof.
  revert st. unfold run. induction calls as [|c rest IH]; simpl; intros st H;
    [exact H|].
  apply IH. destruct c as [w req|w req|id|now]; simpl; try exact H.
  - unfold records_of.
    destruct (chat_state_cases cfg w st req) as [->|[c [_ ->]]]; exact H.
  - unfold records_of.
    destruct (webhook_state_cases cfg w st req) as [->| ->]; [exact H|].
    simpl. apply append_record_records. now right.
Qed.

Lemma run_keeps_records_witness :
  let st1 :=
    wh_state (webhook cfg0 (world0 (NoReply "")) waiting
                (unsigned_request (envelope "success" (text_data "Hi")))) in
  In (record_of (world0 (NoReply "")) (Some pending0)
        (envelope "success" (text_data "Hi")))
     (records_of
        (run cfg0 st1
           [PostWebhook (world0 (NoReply ""))
              (unsigned_request (envelope "error" structured_data));
            GetConversation "nobody";
            PostWebhook (world0 (NoReply ""))
              (unsigned_request (envelope "success" (text_data "Again")))])).
Proof.
  intros st1. apply run_keeps_records. left. reflexivity.
Defined.

Lemma run_log_wellformed (cfg : Config) (calls : list Call) (st : State) :
  keys_unique (conversations st) /\ records_filed (conversations st) ->
  keys_unique (conversations (run cfg st calls))
  /\ records_filed (conversations (run cfg st calls)).
Proof.
  revert st. unfold run.
  induction calls as [|c rest IH]; simpl; intros st H0; [exact H0|].
  apply IH. destruct c as [w req|w req|id|now]; simpl; try exact H0.
  - destruct (chat_state_cases cfg w st req) as [->|[c [_ ->]]]; exact H0.
  - destruct (webhook_state_cases cfg w st req) as [->| ->]; [exact H0|].
    simpl. destruct H0 as [Hu Hf]. split.
    + now apply append_record_unique.
    + now apply append_record_filed.
Qed.

(** Every record with a string conversation id can be fetched: over
    any sequence of requests from the empty stores, a record in the
    log whose conversation id is the string [c] is among the messages
    that [GET /conversations/c] returns, with status 200. *)
Theorem stored_records_are_served (cfg : Config) (calls : list Call) (r : Rec.t)
    (c : string) :
  In r (records_of (run cfg initial calls)) ->
  Rec.conversation_id r = VStr c ->
  exists conv,
    get_conversation (run cfg initial calls) c
    = {| status := 200; json := conversation_json conv |}
    /\ In r (messages conv)
    /\ In (record_json r) (map record_json (messages conv)).
Proof.
  assert (Hinv : keys_unique (conversations (run cfg initial calls))
                 /\ records_filed (conversations (run cfg initial calls))).
  { apply run_log_wellformed. split; [exact I|]. intros k c0 r0 []. }
  destruct Hinv as [Hu Hf]. intros Hin Hc.
  unfold records_of in Hin. apply in_flat_map in Hin.
  destruct Hin as [[k conv] [Hk Hm]]. simpl in Hm.
  pose proof (Hf k conv r Hk Hm) as Hkey. rewrite Hc in Hkey. subst k.
  exists conv. unfold get_conversation.
  rewrite (keys_unique_get _ _ _ Hu Hk (same_value_zero_string c)).
  split; [reflexivity|]. split; [exact Hm|]. now apply in_map.
Qed.

Lemma stored_records_are_served_witness :
  let calls :=
    [PostChat (chat_world0 (Replied 200 (VObj [("channel_id", VStr "test-channel")])))
       {| headers := []; body := VObj [("message", VStr "Hello test")] |};
     PostWebhook (world0 (NoReply ""))
       (unsigned_request (envelope "success" (text_data "Hi")))] in
  let r := record_of (world0 (NoReply "")) (Some pending0)
             (envelope "success" (text_data "Hi")) in
  exists conv,
    get_conversation (run cfg0 initial calls) "9c5b94b1-35ad-49bb-b118-8e8fc24abf80"
    = {| status := 200; json := conversation_json conv |}
    /\ In r (messages conv).
Proof.
  intros calls r.
  destruct (stored_records_are_served cfg0 calls r
              "9c5b94b1-35ad-49bb-b118-8e8fc24abf80")
    as [conv [H1 [H2 _]]].
  - left. reflexivity.
  - reflexivity.
  - exists conv. split; [exact H1|exact H2].
Defined.

Lemma webhook_never_adds_pending_witness :
  In (VStr "test-channel", pending0) (pendingRequests waiting).
Proof.
  apply (proj1 (webhook_never_adds_pending cfg0 (world0 (NoReply "")) waiting
                  (unsigned_request (envelope "success" structured_data)))).
  left. reflexivity.
Defined.

(** A webhook whose record would hold anything but text is turned
    away whole: when the prompt or the response value is neither a
    string nor absent (a structured object, an array, a number, a
    boolean), the answer is 500, nothing is stored, nothing is
    forwarded and the pending request stays where it was. *)
Theorem non_text_webhook_is_rejected (cfg : Config) (w : WebhookWorld) (st : State)
    (req : Request) :
  let b := body req in
  let r := record_of w (Map_get (get_prop "channel_id" b) (pendingRequests st)) b in
  nullish b = false ->
  text_or_absent (Rec.prompt r) && text_or_absent (Rec.response r) = false ->
  status (wh_response (webhook cfg w st req)) = 500
  /\ wh_state (webhook cfg w st req) = st
  /\ wh_callback (webhook cfg w st req) = None.
Proof.
  intros b r Hb Hbad.
  destruct (proj2 (log_record_cases r) Hbad) as [e He].
  rewrite (webhook_log_throws cfg w st req e Hb He). repeat split.
Qed.

Lemma non_text_webhook_is_rejected_witness :
  let out := webhook cfg0 (world0 (Replied 200 VNull)) waiting
               (unsigned_request (envelope_with_callback structured_data)) in
  status (wh_response out) = 500 /\ wh_state out = waiting /\ wh_callback out = None.
Proof.
  apply (non_text_webhook_is_rejected cfg0 (world0 (Replied 200 VNull)) waiting
           (unsigned_request (envelope_with_callback structured_data)));
    reflexivity.
Defined.
